(** * ngrok-cloudflare-updater: a shallow embedding of [update-record.py]

    The script performs one HTTP GET against the ngrok agent, one HTTP PUT
    against the Cloudflare API, and prints diagnostics.  Python values are
    modelled as they occur in the script; the two HTTP exchanges are inputs
    of the model (what the network answered), and everything the script
    does to the outside world is recorded, in order, in a trace. *)

From Stdlib Require Import ZArith List Ascii String Lia.
From stdpp Require Import base option list gmap strings pretty.

Local Open Scope string_scope.
Local Open Scope Z_scope.

(** ** Python strings

    A [string] stands for a Python [str] whose code points are below 256;
    an [ascii] is one code point. *)
Module PyStr.

(** [s.startswith(p)] *)
Fixpoint startswith (p s : string) : bool :=
  match p, s with
  | EmptyString, _ => true
  | String a p', String b s' => if Ascii.eqb a b then startswith p' s' else false
  | String _ _, EmptyString => false
  end.

(** [new.join(s)] with [new] also put before the first and after the last
    character: what [s.replace("", new)] returns. *)
Fixpoint interleave (new s : string) : string :=
  match s with
  | EmptyString => new
  | String c s' => new ++ String c (interleave new s')
  end.

(** The scan of [s.replace(old, new)] for a non-empty [old]: left to right,
    a match of [old] is replaced and the scan resumes after it, so
    occurrences never overlap and replaced text is not scanned again.
    [skip] counts the characters of the current match still to be dropped. *)
Fixpoint replace_scan (old new : string) (skip : nat) (s : string) : string :=
  match s with
  | EmptyString => EmptyString
  | String c s' =>
      match skip with
      | S k => replace_scan old new k s'
      | O =>
          if startswith old s
          then new ++ replace_scan old new (Nat.pred (String.length old)) s'
          else String c (replace_scan old new O s')
      end
  end.

(** [s.replace(old, new)] *)
Definition replace (old new s : string) : string :=
  match old with
  | EmptyString => interleave new s
  | String _ _ => replace_scan old new O s
  end.

(** The pieces of [s.split(sep)] for a one-character separator, with the
    piece being read kept in [cur] in reverse. *)
Fixpoint split_scan (sep : ascii) (cur : list ascii) (s : string) : list string :=
  match s with
  | EmptyString => [string_of_list_ascii (rev cur)]
  | String c s' =>
      if Ascii.eqb c sep
      then string_of_list_ascii (rev cur) :: split_scan sep [] s'
      else split_scan sep (c :: cur) s'
  end.

(** [s.split(":")]: one piece more than there are colons; the empty string
    gives one empty piece. *)
Definition split_colon (s : string) : list string := split_scan ":"%char [] s.

(** Truth value of a [str]: only the empty string is false. *)
Definition truthy (s : string) : bool :=
  match s with EmptyString => false | String _ _ => true end.

End PyStr.

(** ** [int(s)] on a [str]

    Surrounding white space is skipped, one sign is allowed, and the digits
    may be grouped by single underscores.  The interpreter refuses a text
    of more digits than its limit, which is 4300 unless configured
    otherwise; underscores, sign and white space do not count. *)
Module PyInt.

(** White space for [int]: tab, line feed, vertical tab, form feed, carriage
    return and space, and of the code points from 128 to 255 the two that
    are Unicode white space, NEL (133) and NBSP (160). *)
Definition is_space (c : ascii) : bool :=
  let n := nat_of_ascii c in
  ((9 <=? n) && (n <=? 13) || (n =? 32) || (n =? 133) || (n =? 160))%nat.

Definition digit_value (c : ascii) : option Z :=
  let n := nat_of_ascii c in
  if ((48 <=? n) && (n <=? 57))%nat then Some (Z.of_nat n - 48) else None.

Fixpoint lstrip (s : list ascii) : list ascii :=
  match s with
  | c :: s' => if is_space c then lstrip s' else s
  | [] => []
  end.

Definition strip (s : list ascii) : list ascii := rev (lstrip (rev (lstrip s))).

(** Where the scan of the digits stands: nothing read yet, just after a
    digit, or just after an underscore. *)
Inductive scan_state := AtStart | AfterDigit | AfterUnderscore.

Fixpoint scan_digits (st : scan_state) (acc : Z) (s : list ascii) : option Z :=
  match s with
  | [] => match st with AfterDigit => Some acc | _ => None end
  | c :: s' =>
      match digit_value c with
      | Some d => scan_digits AfterDigit (10 * acc + d) s'
      | None =>
          if Ascii.eqb c "_"%char
          then match st with
               | AfterDigit => scan_digits AfterUnderscore acc s'
               | _ => None
               end
          else None
      end
  end.

(** The interpreter's limit on the digits of a text, at its default. *)
Definition max_str_digits : nat := 4300.

Definition count_digits (s : list ascii) : nat :=
  length (List.filter (fun c => match digit_value c with Some _ => true | None => false end) s).

(** The digits after the sign: refused when they are more than the limit,
    and scanned otherwise.  Either refusal is a [ValueError]. *)
Definition parse_digits (s : list ascii) : option Z :=
  if (count_digits s <=? max_str_digits)%nat then scan_digits AtStart 0 s else None.

(** [int(s)]; [None] stands for the [ValueError] it raises. *)
Definition int (s : string) : option Z :=
  match strip (list_ascii_of_string s) with
  | c :: s' =>
      if Ascii.eqb c "-"%char then Z.opp <$> parse_digits s'
      else if Ascii.eqb c "+"%char then parse_digits s'
      else parse_digits (c :: s')
  | [] => None
  end.

End PyInt.


(** ** Python values, exceptions and effects *)

Local Set Warnings "-register-all".

(** The objects [json.loads] and [response.json()] produce.  [JNull] is
    Python's [None]; a [float] is kept as its literal. *)
Inductive json :=
| JNull
| JBool (b : bool)
| JInt (n : Z)
| JFloat (literal : string)
| JStr (s : string)
| JList (items : list json)
| JDict (entries : gmap string json).

(** The exceptions of the script.  [RequestException] stands for
    [requests.exceptions.RequestException] and its subclasses, among them
    the [RequestsJSONDecodeError] that [response.json()] raises;
    [OtherException] for any other [Exception] the HTTP library raises.
    [SystemExit] is not an [Exception]. *)
Inductive exn :=
| RequestException (msg : string)
| RequestsJSONDecodeError
| OtherException (msg : string)
| JSONDecodeError
| KeyError (key : string)
| TypeError
| AttributeError
| ValueError
| IndexError
| SystemExit (code : Z).

Definition is_RequestException (e : exn) : bool :=
  match e with
  | RequestException _ | RequestsJSONDecodeError => true
  | _ => false
  end.

Definition is_Exception (e : exn) : bool :=
  match e with
  | SystemExit _ => false
  | _ => true
  end.

(** A line written by [print]: a known text, a prefix followed by [str(e)]
    of an exception, [print(v)] of a decoded value, or
    [print(json.dumps(v, indent=4))]. *)
Inductive line :=
| Text (s : string)
| TextExn (prefix : string) (e : exn)
| Repr (v : json)
| Dumps (v : json).

(** What a run does, in order: it prints, enters one of the script's two
    functions, or sends a request. *)
Inductive event :=
| Print (l : line)
| Enter (function : string)
| HttpGet (url : string)
| HttpPut (url : string) (headers : gmap string string) (body : json).

(** What the network answers to one request: a response, or a fault raised
    by the HTTP library. *)
Record response := Response {
  status_code : Z;
  (** [json.loads(response.text)], which is [response.json()]; [None] when
      the text is not JSON *)
  decoded : option json
}.

Inductive fault :=
| RequestFault (msg : string)
| OtherFault (msg : string).

Inductive http_outcome :=
| Responded (r : response)
| Failed (f : fault).

Definition exn_of_fault (f : fault) : exn :=
  match f with
  | RequestFault m => RequestException m
  | OtherFault m => OtherException m
  end.

(** A computation returns a value or raises, after a trace of events. *)
Inductive outcome (A : Type) :=
| Return (a : A)
| Raise (e : exn).
Arguments Return {A} a.
Arguments Raise {A} e.

Definition M (A : Type) : Type := list event * outcome A.

Definition ret {A} (a : A) : M A := ([], Return a).
Definition raise {A} (e : exn) : M A := ([], Raise e).
Definition emit (ev : event) : M unit := ([ev], Return tt).
Definition print (l : line) : M unit := emit (Print l).

Definition bind {A B} (m : M A) (k : A -> M B) : M B :=
  match snd m with
  | Return a => ((fst m ++ fst (k a))%list, snd (k a))
  | Raise e => (fst m, Raise e)
  end.

Notation "'let*' x ':=' m 'in' k" := (bind m (fun x => k))
  (at level 10, x binder, m at level 100, k at level 200).
Notation "'do' m 'then' k" := (bind m (fun _ => k))
  (at level 10, m at level 100, k at level 200).

(** [try: body except ...: handler]: [handler e] is [None] when no clause
    matches [e], which then propagates. *)
Definition try_except {A} (body : M A) (handler : exn -> option (M A)) : M A :=
  match snd body with
  | Return a => body
  | Raise e =>
      match handler e with
      | Some h => ((fst body ++ fst h)%list, snd h)
      | None => body
      end
  end.

Definition trace {A} (m : M A) : list event := fst m.
Definition result {A} (m : M A) : outcome A := snd m.

(** ** Operations on decoded values *)

(** [v[key]] for a [str] key: only a [dict] can be subscripted by one. *)
Definition subscript (v : json) (key : string) : M json :=
  match v with
  | JDict d =>
      match d !! key with
      | Some x => ret x
      | None => raise (KeyError key)
      end
  | _ => raise TypeError
  end.

(** The items [for x in v] runs through: the elements of a [list], the keys
    of a [dict], the characters of a [str]; nothing else is iterable. *)
Definition iterate (v : json) : M (list json) :=
  match v with
  | JList items => ret items
  | JDict d => ret (JStr <$> (map_to_list d).*1)
  | JStr s => ret ((fun c => JStr (String c EmptyString)) <$> list_ascii_of_string s)
  | _ => raise TypeError
  end.

(** [v == s] for a [str] [s] *)
Definition eq_str (v : json) (s : string) : bool :=
  match v with
  | JStr s' => String.eqb s' s
  | _ => false
  end.

(** [v.replace(old, new)]: only a [str] has the method. *)
Definition replace_method (v : json) (old new : string) : M string :=
  match v with
  | JStr s => ret (PyStr.replace old new s)
  | _ => raise AttributeError
  end.

(** [l[i]] on a list *)
Definition index {A} (l : list A) (i : nat) : M A :=
  match l !! i with
  | Some x => ret x
  | None => raise IndexError
  end.

(** [int(s)] *)
Definition int (s : string) : M Z :=
  match PyInt.int s with
  | Some n => ret n
  | None => raise ValueError
  end.

(** ** The HTTP library *)

(** [requests.get(url)] *)
Definition requests_get (url : string) (net : http_outcome) : M response :=
  do emit (HttpGet url) then
  match net with
  | Responded r => ret r
  | Failed f => raise (exn_of_fault f)
  end.

(** [requests.put(url, headers=headers, json=data)] *)
Definition requests_put (url : string) (headers : gmap string string) (data : json)
    (net : http_outcome) : M response :=
  do emit (HttpPut url headers data) then
  match net with
  | Responded r => ret r
  | Failed f => raise (exn_of_fault f)
  end.

(** [json.loads(response.text)] *)
Definition json_loads_text (r : response) : M json :=
  match decoded r with
  | Some v => ret v
  | None => raise JSONDecodeError
  end.

(** [response.json()] *)
Definition response_json (r : response) : M json :=
  match decoded r with
  | Some v => ret v
  | None => raise RequestsJSONDecodeError
  end.

(** ** [get_ngrok_url] *)

(** What [get_ngrok_url] hands back: the tuple [(None, None)], the list
    made by [split], or [None] when the function body ends without a
    [return]. *)
Inductive ngrok_result :=
| NonePair
| SplitList (parts : list string)
| ImplicitNone.

(** The [for tunnel in tunnels] loop; [None] when it ends without having
    returned. *)
Fixpoint scan_tunnels (tunnels : list json) : M (option ngrok_result) :=
  match tunnels with
  | [] => ret None
  | tunnel :: rest =>
      let* proto := subscript tunnel "proto" in
      if eq_str proto "tcp"
      then
        let* public_url := subscript tunnel "public_url" in
        let* stripped := replace_method public_url "tcp://" "" in
        ret (Some (SplitList (PyStr.split_colon stripped)))
      else scan_tunnels rest
  end.

(** The statements under [try] *)
Definition get_ngrok_url_try (api_endpoint_url : string) (net : http_outcome)
    : M (option ngrok_result) :=
  let* response := requests_get api_endpoint_url net in
  if negb (status_code response =? 200)
  then
    do print (Text ("Error fetching ngrok URL: HTTP " ++ pretty (status_code response))) then
    ret (Some NonePair)
  else
    let* body := json_loads_text response in
    let* tunnels := subscript body "tunnels" in
    let* items := iterate tunnels in
    scan_tunnels items.

(** The two [except] clauses *)
Definition get_ngrok_url_except (e : exn) : option (M (option ngrok_result)) :=
  if is_RequestException e
  then Some (do print (TextExn "Network error occurred: " e) then ret (Some NonePair))
  else if is_Exception e
  then Some (do print (TextExn "Error: " e) then ret (Some NonePair))
  else None.

Definition get_ngrok_url (api_endpoint_url : string) (net : http_outcome) : M ngrok_result :=
  do emit (Enter "get_ngrok_url") then
  let* returned :=
    try_except (get_ngrok_url_try api_endpoint_url net) get_ngrok_url_except in
  ret (default ImplicitNone returned).

(** ** [update_cloudflare_dns] *)

(** The keyword arguments of the function; [ttl] is [None] when the caller
    leaves it out. *)
Record dns_args := DnsArgs {
  api_token : string;
  zone_id : string;
  record_id : string;
  name : string;
  content : string;
  service : string;
  proto : string;
  ttl : option Z
}.

Definition request_url (a : dns_args) : string :=
  "https://api.cloudflare.com/client/v4/zones/" ++ zone_id a
    ++ "/dns_records/" ++ record_id a.

Definition request_headers (a : dns_args) : gmap string string :=
  {[ "Authorization" := "Bearer " ++ api_token a;
     "Content-Type" := "application/json" ]}.

(** The [data] dictionary, once its port and target are known. *)
Definition data_dict (a : dns_args) (port : Z) (target : string) : gmap string json :=
  {[ "type" := JStr "SRV";
     "name" := JStr (name a);
     "content" := JStr (content a);
     "data" := JDict {[
       "service" := JStr (service a);
       "proto" := JStr (proto a);
       "name" := JStr (name a);
       "priority" := JInt 0;
       "weight" := JInt 0;
       "port" := JInt port;
       "target" := JStr target ]};
     "ttl" := JInt (default 60 (ttl a)) ]}.

(** The evaluation of the [data] dictionary: its entries are evaluated in
    the order written, so the port is parsed before the target is taken. *)
Definition request_data (a : dns_args) : M json :=
  let* port_text := index (PyStr.split_colon (content a)) 1 in
  let* port := int port_text in
  let* target := index (PyStr.split_colon (content a)) 0 in
  ret (JDict (data_dict a port target)).

(** The statements under [try] *)
Definition update_cloudflare_dns_try (url : string) (headers : gmap string string)
    (data : json) (net : http_outcome) : M json :=
  let* response := requests_put url headers data net in
  if negb (status_code response =? 200)
  then
    do print (Text ("Error updating Cloudflare DNS: HTTP " ++ pretty (status_code response))) then
    let* body := response_json response in
    do print (Repr body) then
    ret JNull
  else response_json response.

(** The two [except] clauses *)
Definition update_cloudflare_dns_except (e : exn) : option (M json) :=
  if is_RequestException e
  then Some (do print (TextExn "Network error occurred: " e) then ret JNull)
  else if is_Exception e
  then Some (do print (TextExn "Unexpected error: " e) then ret JNull)
  else None.

Definition update_cloudflare_dns (a : dns_args) (net : http_outcome) : M json :=
  do emit (Enter "update_cloudflare_dns") then
  let url := request_url a in
  let headers := request_headers a in
  let* data := request_data a in
  try_except (update_cloudflare_dns_try url headers data net) update_cloudflare_dns_except.

(** ** The script body *)

(** [os.getenv(key)] and [os.getenv(key, fallback)] *)
Definition getenv (environ : gmap string string) (key : string) : option string :=
  environ !! key.
Definition getenv_or (environ : gmap string string) (key fallback : string) : string :=
  default fallback (environ !! key).

(** Truth value of what [os.getenv] returns: [None] and the empty string
    are false. *)
Definition truthy (v : option string) : bool :=
  match v with
  | Some s => PyStr.truthy s
  | None => false
  end.

(** [str(v)] as an f-string puts it *)
Definition format (v : option string) : string :=
  match v with
  | Some s => s
  | None => "None"
  end.

(** [host, port = r]: a two-element sequence is taken apart, any other
    list is a [ValueError], [None] a [TypeError]. *)
Definition unpack_pair (r : ngrok_result) : M (option string * option string) :=
  match r with
  | NonePair => ret (None, None)
  | SplitList [h; p] => ret (Some h, Some p)
  | SplitList _ => raise ValueError
  | ImplicitNone => raise TypeError
  end.

(** The statements after the check of the configuration: the lookup, and
    the update when the lookup gave a host and a port. *)
Definition main_after_check
    (cf_api_token cf_zone_id cf_record_id ngrok_endpoint : option string)
    (cf_record_name cloudflare_service_name : string)
    (get_net put_net : http_outcome) : M unit :=
  let* returned := get_ngrok_url (format ngrok_endpoint) get_net in
  let* '(ngrok_host, ngrok_port) := unpack_pair returned in
  if truthy ngrok_host && truthy ngrok_port
  then
    do print (Text ("Ngrok Host: " ++ format ngrok_host ++ ", Port: " ++ format ngrok_port)) then
    let* update_response :=
      update_cloudflare_dns
        (DnsArgs (format cf_api_token) (format cf_zone_id) (format cf_record_id)
           cf_record_name
           (format ngrok_host ++ ":" ++ format ngrok_port)
           cloudflare_service_name "_tcp" None)
        put_net in
    print (Dumps update_response)
  else print (Text "Failed to retrieve ngrok URL and port.").

(** The statements under [if __name__ == "__main__"].  [os_environ] is the
    process environment and [dotenv] the content of the [.env] file, which
    [load_dotenv(override=True)] lays over it; [get_net] and [put_net] are
    what the network answers to the two requests.  Past the check the four
    required values are strings, which [format] leaves as they are. *)
Definition main (os_environ dotenv : gmap string string)
    (get_net put_net : http_outcome) : M unit :=
  let environ := dotenv ∪ os_environ in
  let cf_api_token := getenv environ "CLOUDFLARE_API_TOKEN" in
  let cf_zone_id := getenv environ "CLOUDFLARE_ZONE_ID" in
  let cf_record_id := getenv environ "CLOUDFLARE_RECORD_ID" in
  let ngrok_endpoint := getenv environ "NGROK_API_ENDPOINT" in
  let cf_record_name := getenv_or environ "CLOUDFLARE_RECORD_NAME" "default_record_name" in
  let cloudflare_service_name := getenv_or environ "CLOUDFLARE_SERVICE_NAME" "_minecraft" in
  if negb (forallb truthy [cf_api_token; cf_zone_id; cf_record_id; ngrok_endpoint])
  then
    do print (Text "Missing one or more required environment variables.") then
    raise (SystemExit 1)
  else
    main_after_check cf_api_token cf_zone_id cf_record_id ngrok_endpoint
      cf_record_name cloudflare_service_name get_net put_net.

(** The exit status of the process: that of [exit(code)], 1 after any other
    exception that nothing caught, 0 when the script runs to its end. *)
Definition exit_status (r : outcome unit) : Z :=
  match r with
  | Return _ => 0
  | Raise (SystemExit code) => code
  | Raise _ => 1
  end.

(** ** Vocabulary of the statements *)

Definition colon_free (s : string) : bool :=
  forallb (fun c => negb (Ascii.eqb c ":"%char)) (list_ascii_of_string s).

(** [old in s] *)
Fixpoint occurs (old s : string) : bool :=
  PyStr.startswith old s
  || match s with
     | EmptyString => false
     | String _ s' => occurs old s'
     end.

Definition is_digit (c : ascii) : bool :=
  ((48 <=? nat_of_ascii c) && (nat_of_ascii c <=? 57))%nat.

(** A non-empty run of the digits 0 to 9. *)
Definition numeric (s : string) : bool :=
  PyStr.truthy s && forallb is_digit (list_ascii_of_string s).

(** A text of no more characters than [int] takes digits. *)
Definition within_digit_limit (s : string) : bool :=
  (String.length s <=? PyInt.max_str_digits)%nat.

(** A run of [n] zeros. *)
Fixpoint zeros (n : nat) : string :=
  match n with
  | O => EmptyString
  | S k => String "0"%char (zeros k)
  end.

(** The number a run of digits denotes in base 10. *)
Definition decimal_value (s : string) : Z :=
  fold_left (fun acc c => 10 * acc + (Z.of_nat (nat_of_ascii c) - 48))
    (list_ascii_of_string s) 0.

(** The reading of a tunnel URL in which only a scheme at the front is
    taken off before the split. *)
Definition strip_leading_scheme (u : string) : string :=
  if PyStr.startswith "tcp://" u then String.substring 6 (String.length u - 6) u else u.
Definition split_after_leading_scheme (u : string) : list string :=
  PyStr.split_colon (strip_leading_scheme u).

(** The requests among the events of a run. *)
Definition is_request (ev : event) : bool :=
  match ev with
  | HttpGet _ | HttpPut _ _ _ => true
  | _ => false
  end.
Definition requests_sent {A} (m : M A) : list event :=
  List.filter is_request (trace m).

(** The names [os.getenv] must find for the script to go on. *)
Definition required_names : list string :=
  ["CLOUDFLARE_API_TOKEN"; "CLOUDFLARE_ZONE_ID"; "CLOUDFLARE_RECORD_ID"; "NGROK_API_ENDPOINT"].

(** A decoded tunnel entry, a decoded answer of the agent, and the 200
    response that carries it. *)
Definition tunnel_entry (proto public_url : string) : json :=
  JDict {[ "proto" := JStr proto; "public_url" := JStr public_url ]}.
Definition tunnels_body (tunnels : list json) : json :=
  JDict {[ "tunnels" := JList tunnels ]}.
Definition agent_answer (tunnels : list json) : http_outcome :=
  Responded (Response 200 (Some (tunnels_body tunnels))).

(** A configuration with the four required values, and an answer of the
    DNS provider. *)
Definition example_endpoint : string := "http://localhost:4040/api/tunnels".
Definition example_environ : gmap string string :=
  {[ "CLOUDFLARE_API_TOKEN" := "token";
     "CLOUDFLARE_ZONE_ID" := "zone";
     "CLOUDFLARE_RECORD_ID" := "record";
     "NGROK_API_ENDPOINT" := example_endpoint ]}.
Definition provider_answer (status : Z) : http_outcome :=
  Responded (Response status (Some (JDict {[ "success" := JBool (status =? 200) ]}))).

(** An entry the loop passes over: an object whose ["proto"] is there and
    is not ["tcp"]. *)
Definition passed_over (tunnel : json) : bool :=
  match tunnel with
  | JDict d =>
      match d !! "proto" with
      | Some proto => negb (eq_str proto "tcp")
      | None => false
      end
  | _ => false
  end.

(** The arguments with which the script calls [update_cloudflare_dns]. *)
Definition script_args (environ : gmap string string) (host port : string) : dns_args :=
  DnsArgs (format (getenv environ "CLOUDFLARE_API_TOKEN"))
    (format (getenv environ "CLOUDFLARE_ZONE_ID"))
    (format (getenv environ "CLOUDFLARE_RECORD_ID"))
    (getenv_or environ "CLOUDFLARE_RECORD_NAME" "default_record_name")
    (host ++ ":" ++ port)
    (getenv_or environ "CLOUDFLARE_SERVICE_NAME" "_minecraft") "_tcp" None.

(** An entry on which the loop raises: not an object, an object without
    ["proto"], or one with proto ["tcp"] whose ["public_url"] is missing or
    is not a string. *)
Definition unusable (tunnel : json) : bool :=
  match tunnel with
  | JDict d =>
      match d !! "proto" with
      | Some proto =>
          eq_str proto "tcp"
          && match d !! "public_url" with
             | Some (JStr _) => false
             | _ => true
             end
      | None => true
      end
  | _ => true
  end.

(** An answer to the PUT that [update_cloudflare_dns] takes as a success:
    a response with status 200 whose text is JSON. *)
Definition accepted (net : http_outcome) : bool :=
  match net with
  | Responded r =>
      (status_code r =? 200)
      && match decoded r with Some _ => true | None => false end
  | Failed _ => false
  end.

(** Evaluation of the monadic operations, leaving the script's own
    functions folded. *)
Ltac run :=
  cbn [bind try_except emit print ret raise requests_get requests_put
       json_loads_text response_json subscript iterate replace_method index int
       exn_of_fault is_RequestException is_Exception
       get_ngrok_url_except update_cloudflare_dns_except
       status_code decoded fst snd trace result app negb default].

(** * Verification *)

(** ** The built-in operations on known inputs *)

Example int_plain : PyInt.int "5555" = Some 5555.
Proof. reflexivity. Qed.

Example int_spaces_sign_groups :
  PyInt.int (String "009" "-1_0" ++ String "010" "") = Some (-10).
Proof. reflexivity. Qed.

Example int_rejects :
  map PyInt.int [""; "-"; "_1"; "1__0"; "5_"; "+ 5"; "5 5"; "http"; String "028" "5"]
  = [None; None; None; None; None; None; None; None; None].
Proof. reflexivity. Qed.

Example replace_all_occurrences :
  PyStr.replace "tcp://" "" "tcp://atcp://b:1" = "ab:1"
  /\ PyStr.replace "tcp://" "" "ttcp://cp://x" = "tcp://x"
  /\ PyStr.replace "" "-" "abc" = "-a-b-c-".
Proof. repeat split; reflexivity. Qed.

Example split_pieces :
  PyStr.split_colon "" = [""]
  /\ PyStr.split_colon "a::b" = ["a"; ""; "b"]
  /\ PyStr.split_colon "1.2.3.4:5555" = ["1.2.3.4"; "5555"].
Proof. repeat split; reflexivity. Qed.

Example status_in_decimal : pretty 502 = "502" /\ pretty (-3) = "-3".
Proof. split; vm_compute; reflexivity. Qed.

(** ** Strings: [split] and [replace] *)

Section StringFacts.

Local Open Scope list_scope.

Lemma string_of_list_ascii_app (a b : list ascii) :
  string_of_list_ascii (a ++ b) = (string_of_list_ascii a ++ string_of_list_ascii b)%string.
Proof. induction a as [|c a IH]; simpl; [reflexivity | now rewrite IH]. Qed.

Lemma list_ascii_of_string_app (s t : string) :
  list_ascii_of_string (s ++ t)%string = list_ascii_of_string s ++ list_ascii_of_string t.
Proof. induction s as [|c s IH]; simpl; [reflexivity | now rewrite IH]. Qed.

Lemma colon_free_cons c s :
  colon_free (String c s) = negb (Ascii.eqb c ":"%char) && colon_free s.
Proof. reflexivity. Qed.

Lemma split_scan_colon_free (s : string) (cur : list ascii) :
  colon_free s = true ->
  PyStr.split_scan ":"%char cur s
  = [string_of_list_ascii (rev cur ++ list_ascii_of_string s)].
Proof.
  revert cur; induction s as [|c s IH]; intros cur Hs; simpl.
  - now rewrite app_nil_r.
  - rewrite colon_free_cons in Hs. apply andb_true_iff in Hs as [Hc Hs].
    apply negb_true_iff in Hc. rewrite Hc, (IH _ Hs). simpl.
    now rewrite <- app_assoc.
Qed.

Lemma split_scan_at_colon (h rest : string) (cur : list ascii) :
  colon_free h = true ->
  PyStr.split_scan ":"%char cur (h ++ String ":"%char rest)%string
  = string_of_list_ascii (rev cur ++ list_ascii_of_string h)
      :: PyStr.split_scan ":"%char [] rest.
Proof.
  revert cur; induction h as [|c h IH]; intros cur Hh; simpl.
  - now rewrite app_nil_r.
  - rewrite colon_free_cons in Hh. apply andb_true_iff in Hh as [Hc Hh].
    apply negb_true_iff in Hc. rewrite Hc, (IH _ Hh). simpl.
    now rewrite <- app_assoc.
Qed.

(** Splitting [host:port] gives back the two parts when neither holds a
    colon. *)
Lemma split_colon_host_port (host port : string) :
  colon_free host = true -> colon_free port = true ->
  PyStr.split_colon (host ++ ":" ++ port)%string = [host; port].
Proof.
  intros Hh Hp. unfold PyStr.split_colon.
  change (host ++ ":" ++ port)%string with (host ++ String ":"%char port)%string.
  rewrite (split_scan_at_colon _ _ _ Hh), (split_scan_colon_free _ _ Hp). simpl.
  now rewrite !string_of_list_ascii_of_string.
Qed.

Lemma forallb_reverse {A} (f : A -> bool) (l : list A) :
  forallb f (rev l) = forallb f l.
Proof.
  induction l as [|x l IH]; simpl; [reflexivity|].
  rewrite forallb_app, IH. simpl. destruct (forallb f l), (f x); reflexivity.
Qed.

Lemma colon_free_of_list (l : list ascii) :
  colon_free (string_of_list_ascii l) = forallb (fun c => negb (Ascii.eqb c ":"%char)) l.
Proof. unfold colon_free. now rewrite list_ascii_of_string_of_list_ascii. Qed.

(** No piece of a split holds a colon. *)
Lemma split_scan_pieces_colon_free (s : string) (cur : list ascii) :
  forallb (fun c => negb (Ascii.eqb c ":"%char)) cur = true ->
  Forall (fun piece => colon_free piece = true) (PyStr.split_scan ":"%char cur s).
Proof.
  revert cur; induction s as [|c s IH]; intros cur Hcur; simpl.
  - constructor; [|constructor]. rewrite colon_free_of_list, forallb_reverse. exact Hcur.
  - destruct (Ascii.eqb c ":"%char) eqn:Hc.
    + constructor; [|now apply IH].
      rewrite colon_free_of_list, forallb_reverse. exact Hcur.
    + apply IH. simpl. now rewrite Hc.
Qed.

Lemma split_colon_pieces_colon_free (s : string) :
  Forall (fun piece => colon_free piece = true) (PyStr.split_colon s).
Proof. now apply split_scan_pieces_colon_free. Qed.

Lemma replace_scan_skip (old new a s : string) :
  PyStr.replace_scan old new (String.length a) (a ++ s)%string
  = PyStr.replace_scan old new O s.
Proof.
  induction a as [|c a IH]; simpl; [|exact IH].
  destruct s; reflexivity.
Qed.

Lemma replace_scan_absent (old new s : string) :
  occurs old s = false -> PyStr.replace_scan old new O s = s.
Proof.
  induction s as [|c s IH]; intros H; [reflexivity|].
  cbn [occurs] in H. apply orb_false_iff in H as [Hhere Hlater].
  cbn [PyStr.replace_scan]. rewrite Hhere. f_equal. now apply IH.
Qed.

(** A scheme at the front is removed, and nothing else when the rest does
    not hold the scheme again. *)
Lemma replace_scheme_prefix (s : string) :
  occurs "tcp://" s = false ->
  PyStr.replace "tcp://" "" ("tcp://" ++ s)%string = s.
Proof.
  intros H. unfold PyStr.replace.
  change ("tcp://" ++ s)%string with (String "t" ("cp://" ++ s))%string.
  cbn [PyStr.replace_scan]. 
  change (PyStr.startswith "tcp://" (String "t" ("cp://" ++ s))) with true.
  cbn iota. change (Nat.pred (String.length "tcp://")) with (String.length "cp://").
  rewrite replace_scan_skip. simpl. now apply replace_scan_absent.
Qed.

End StringFacts.

(** ** [int] on a run of digits *)

Section IntFacts.

Local Open Scope list_scope.

Lemma digit_facts (c : ascii) :
  is_digit c = true ->
  PyInt.is_space c = false
  /\ Ascii.eqb c "-"%char = false
  /\ Ascii.eqb c "+"%char = false
  /\ PyInt.digit_value c = Some (Z.of_nat (nat_of_ascii c) - 48).
Proof.
  destruct c as [[] [] [] [] [] [] [] []]; vm_compute; intros H;
    solve [discriminate H | repeat split].
Qed.

Lemma lstrip_digits (l : list ascii) :
  forallb is_digit l = true -> PyInt.lstrip l = l.
Proof.
  destruct l as [|c l]; [reflexivity|]. simpl. intros H.
  apply andb_true_iff in H as [Hc _].
  destruct (digit_facts c Hc) as [Hs _]. now rewrite Hs.
Qed.

Lemma strip_digits (l : list ascii) :
  forallb is_digit l = true -> PyInt.strip l = l.
Proof.
  intros H. unfold PyInt.strip.
  rewrite (lstrip_digits l H), lstrip_digits, rev_involutive; [reflexivity|].
  now rewrite forallb_reverse.
Qed.

Lemma scan_digits_run (l : list ascii) (acc : Z) :
  forallb is_digit l = true ->
  PyInt.scan_digits PyInt.AfterDigit acc l
  = Some (fold_left (fun a c => 10 * a + (Z.of_nat (nat_of_ascii c) - 48)) l acc).
Proof.
  revert acc; induction l as [|c l IH]; intros acc H; [reflexivity|].
  simpl in H. apply andb_true_iff in H as [Hc Hl].
  destruct (digit_facts c Hc) as (_ & _ & _ & Hd).
  cbn [PyInt.scan_digits fold_left]. rewrite Hd. now apply IH.
Qed.

Lemma length_list_ascii_of_string (s : string) :
  length (list_ascii_of_string s) = String.length s.
Proof. induction s as [|c s IH]; [reflexivity|]. cbn. now rewrite IH. Qed.

Lemma count_digits_run (l : list ascii) :
  forallb is_digit l = true -> PyInt.count_digits l = length l.
Proof.
  unfold PyInt.count_digits. induction l as [|c l IH]; [reflexivity|].
  cbn [forallb]. intros H. apply andb_true_iff in H as [Hc Hl].
  destruct (digit_facts c Hc) as (_ & _ & _ & Hd).
  cbn [List.filter]. rewrite Hd. cbn [length]. now rewrite (IH Hl).
Qed.

(** A run of digits within the limit passes the count. *)
Lemma parse_digits_run (s : string) :
  forallb is_digit (list_ascii_of_string s) = true ->
  within_digit_limit s = true ->
  PyInt.parse_digits (list_ascii_of_string s)
  = PyInt.scan_digits PyInt.AtStart 0 (list_ascii_of_string s).
Proof.
  intros Hall Hlim. unfold PyInt.parse_digits.
  rewrite (count_digits_run _ Hall), length_list_ascii_of_string.
  unfold within_digit_limit in Hlim. now rewrite Hlim.
Qed.

(** On a non-empty run of digits within the limit [int] gives the number
    it denotes. *)
Lemma int_numeric (s : string) :
  numeric s = true -> within_digit_limit s = true ->
  PyInt.int s = Some (decimal_value s).
Proof.
  unfold numeric, PyInt.int, decimal_value. intros H Hlim.
  apply andb_true_iff in H as [Hne Hall].
  rewrite (strip_digits _ Hall).
  pose proof (parse_digits_run s Hall Hlim) as Hparse.
  destruct s as [|c s]; [discriminate Hne|].
  cbn [list_ascii_of_string] in *. cbn [forallb] in Hall.
  apply andb_true_iff in Hall as [Hc Hl].
  destruct (digit_facts c Hc) as (_ & Hminus & Hplus & Hd).
  rewrite Hminus, Hplus, Hparse. cbn [PyInt.scan_digits fold_left]. rewrite Hd.
  now apply scan_digits_run.
Qed.

(** Beyond the limit [int] refuses even a run of digits. *)
Lemma int_over_limit (s : string) :
  numeric s = true -> within_digit_limit s = false -> PyInt.int s = None.
Proof.
  unfold numeric, PyInt.int. intros H Hlim.
  apply andb_true_iff in H as [Hne Hall].
  rewrite (strip_digits _ Hall).
  assert (Hparse : PyInt.parse_digits (list_ascii_of_string s) = None).
  { unfold PyInt.parse_digits.
    rewrite (count_digits_run _ Hall), length_list_ascii_of_string.
    unfold within_digit_limit in Hlim. now rewrite Hlim. }
  destruct s as [|c s]; [discriminate Hne|].
  cbn [list_ascii_of_string] in *. cbn [forallb] in Hall.
  apply andb_true_iff in Hall as [Hc Hl].
  destruct (digit_facts c Hc) as (_ & Hminus & Hplus & _).
  now rewrite Hminus, Hplus, Hparse.
Qed.

Lemma length_zeros (n : nat) : String.length (zeros n) = n.
Proof. induction n as [|n IH]; [reflexivity|]. cbn [zeros String.length]. now rewrite IH. Qed.

Lemma zeros_digits (n : nat) :
  forallb is_digit (list_ascii_of_string (zeros n)) = true.
Proof. induction n as [|n IH]; [reflexivity|exact IH]. Qed.

Lemma numeric_zeros (n : nat) : numeric (zeros (S n)) = true.
Proof.
  unfold numeric. rewrite zeros_digits. reflexivity.
Qed.

Lemma decimal_value_zeros (n : nat) : decimal_value (zeros n) = 0.
Proof.
  unfold decimal_value. induction n as [|n IH]; [reflexivity|exact IH].
Qed.

(** The limit stands at 4300 digits: a run of 4300 zeros is read as 0, a
    run of 4301 is refused. *)
Example int_digit_limit :
  PyInt.int (zeros 4300) = Some 0 /\ PyInt.int (zeros 4301) = None.
Proof.
  split.
  - rewrite <- (decimal_value_zeros 4300). apply int_numeric.
    + apply numeric_zeros.
    + unfold within_digit_limit. rewrite length_zeros. reflexivity.
  - apply int_over_limit.
    + apply numeric_zeros.
    + unfold within_digit_limit. rewrite length_zeros. reflexivity.
Qed.

End IntFacts.


(** ** How the two functions run *)

(** The loop raises nothing but what [except Exception] catches, and what
    it returns is a split. *)
Lemma scan_tunnels_cases (items : list json) :
  scan_tunnels items = ([], Return None)
  \/ (exists s, scan_tunnels items = ([], Return (Some (SplitList (PyStr.split_colon s)))))
  \/ (exists e, scan_tunnels items = ([], Raise e)
        /\ is_RequestException e = false /\ is_Exception e = true).
Proof.
  induction items as [|tunnel rest IH]; [now left|].
  cbn [scan_tunnels].
  destruct tunnel as [| | | | |?|d]; run;
    try (right; right; eexists; repeat split; reflexivity).
  destruct (d !! "proto") as [proto|]; run;
    [|right; right; eexists; repeat split; reflexivity].
  destruct (eq_str proto "tcp").
  - destruct (d !! "public_url") as [public_url|]; run;
      [|right; right; eexists; repeat split; reflexivity].
    destruct public_url; run;
      try (right; right; eexists; repeat split; reflexivity).
    right; left; eexists; reflexivity.
  - destruct IH as [H|[[s H]|(e & H & H1 & H2)]]; rewrite H; run; eauto 6.
Qed.

(** [get_ngrok_url] never raises: it returns after the request and at most
    one printed line, and what it returns is the tuple of two [None], a
    split, or the [None] of a body that ends without [return]. *)
Lemma get_ngrok_url_cases (url : string) (net : http_outcome) :
  exists (log : list line) (r : ngrok_result),
    get_ngrok_url url net
    = (Enter "get_ngrok_url" :: HttpGet url :: map Print log, Return r)
    /\ (r = NonePair \/ r = ImplicitNone
        \/ exists s, r = SplitList (PyStr.split_colon s)).
Proof.
  unfold get_ngrok_url, get_ngrok_url_try.
  destruct net as [[status body]|f]; run.
  - destruct (status =? 200); run.
    + destruct body as [body|]; run.
      * assert (Hloop : forall items,
          exists log r,
            (do emit (Enter "get_ngrok_url") then
             let* returned :=
               try_except
                 (do emit (HttpGet url) then scan_tunnels items)
                 get_ngrok_url_except in
             ret (default ImplicitNone returned))
            = (Enter "get_ngrok_url" :: HttpGet url :: map Print log, Return r)
            /\ (r = NonePair \/ r = ImplicitNone
                \/ exists s, r = SplitList (PyStr.split_colon s))).
        { intros items.
          destruct (scan_tunnels_cases items) as [H|[[s H]|(e & H & H1 & H2)]];
            rewrite H; run.
          - exists [], ImplicitNone. split; [reflexivity|auto].
          - exists [], (SplitList (PyStr.split_colon s)). split; [reflexivity|eauto].
          - unfold get_ngrok_url_except. rewrite H1, H2. run.
            exists [TextExn "Error: " e], NonePair. split; [reflexivity|auto]. }
        destruct body as [| | | | |?|d]; run;
          try (exists [TextExn "Error: " TypeError], NonePair; split; [reflexivity|now left]).
        destruct (d !! "tunnels") as [tunnels|]; run;
          [|exists [TextExn "Error: " (KeyError "tunnels")], NonePair; split;
            [reflexivity|now left]].
        destruct tunnels; run;
          try (exists [TextExn "Error: " TypeError], NonePair; split; [reflexivity|now left]);
          match goal with |- context [scan_tunnels ?l] =>
            specialize (Hloop l); revert Hloop; run; exact (fun H => H) end.
      * exists [TextExn "Error: " JSONDecodeError], NonePair. split; [reflexivity|now left].
    + eexists [_], NonePair. split; [reflexivity|now left].
  - destruct f; run.
    + eexists [_], NonePair. split; [reflexivity|now left].
    + eexists [_], NonePair. split; [reflexivity|now left].
Qed.

Lemma scan_tunnels_passes_over (before rest : list json) :
  forallb passed_over before = true ->
  scan_tunnels (before ++ rest) = scan_tunnels rest.
Proof.
  induction before as [|tunnel before IH]; [reflexivity|].
  cbn [forallb]. intros H. apply andb_true_iff in H as [Ht Hb].
  cbn [app scan_tunnels]. destruct tunnel as [| | | | |?|d]; try discriminate Ht.
  cbn [passed_over] in Ht. run. destruct (d !! "proto") as [proto|]; [|discriminate Ht].
  apply negb_true_iff in Ht. run. rewrite Ht. rewrite (IH Hb).
  destruct (scan_tunnels rest) as [t [x|e]]; reflexivity.
Qed.

Lemma scan_tunnels_tcp_entry (entry : gmap string json) (public_url : string)
    (rest : list json) :
  entry !! "proto" = Some (JStr "tcp") ->
  entry !! "public_url" = Some (JStr public_url) ->
  scan_tunnels (JDict entry :: rest)
  = ([], Return (Some (SplitList (PyStr.split_colon (PyStr.replace "tcp://" "" public_url))))).
Proof. intros Hp Hu. cbn [scan_tunnels]. run. rewrite Hp. run. cbn [eq_str String.eqb Ascii.eqb Bool.eqb]. rewrite Hu. reflexivity. Qed.

(** With a 200 answer whose ["tunnels"] is a list, the function returns
    what the loop returns, and prints nothing, when the loop does not
    raise. *)
Lemma get_ngrok_url_of_loop (url : string) (d : gmap string json)
    (tunnels : list json) (found : option ngrok_result) :
  d !! "tunnels" = Some (JList tunnels) ->
  scan_tunnels tunnels = ([], Return found) ->
  get_ngrok_url url (Responded (Response 200 (Some (JDict d))))
  = ([Enter "get_ngrok_url"; HttpGet url], Return (default ImplicitNone found)).
Proof.
  intros Hd Hloop. unfold get_ngrok_url, get_ngrok_url_try. run.
  cbn [Z.eqb Pos.eqb]. run. rewrite Hd. run. rewrite Hloop. reflexivity.
Qed.

(** When every entry is passed over, the function returns [None], not a
    pair. *)
Lemma get_ngrok_url_no_tcp_entry (url : string) (d : gmap string json)
    (tunnels : list json) :
  d !! "tunnels" = Some (JList tunnels) ->
  forallb passed_over tunnels = true ->
  get_ngrok_url url (Responded (Response 200 (Some (JDict d))))
  = ([Enter "get_ngrok_url"; HttpGet url], Return ImplicitNone).
Proof.
  intros Hd Hall.
  apply (get_ngrok_url_of_loop url d tunnels None Hd).
  rewrite <- (app_nil_r tunnels). now rewrite scan_tunnels_passes_over.
Qed.

(** ** The claims about [get_ngrok_url] *)

(** C7.  When the agent answers with a status other than 200,
    [get_ngrok_url] prints the line naming the status and returns the
    tuple [(None, None)]; it raises nothing. *)
Theorem get_ngrok_url_non_200 (url : string) (r : response) :
  status_code r <> 200 ->
  get_ngrok_url url (Responded r)
  = ([Enter "get_ngrok_url"; HttpGet url;
      Print (Text ("Error fetching ngrok URL: HTTP " ++ pretty (status_code r)))],
     Return NonePair).
Proof.
  intros H. apply Z.eqb_neq in H.
  unfold get_ngrok_url, get_ngrok_url_try. run. rewrite H. reflexivity.
Qed.

Lemma get_ngrok_url_non_200_witness :
  status_code (Response 502 None) <> 200
  /\ get_ngrok_url example_endpoint (Responded (Response 502 None))
     = ([Enter "get_ngrok_url"; HttpGet example_endpoint;
         Print (Text "Error fetching ngrok URL: HTTP 502")],
        Return NonePair).
Proof.
  split; [discriminate|].
  apply (get_ngrok_url_non_200 example_endpoint (Response 502 None)).
  discriminate.
Defined.

(** C1.  A 200 answer whose only tunnel has proto ["http"]: the loop ends
    without a [return], so [get_ngrok_url] hands back [None] and not the
    tuple [(None, None)], and the assignment [ngrok_host, ngrok_port = ...]
    of the script raises [TypeError], which nothing catches. *)
Theorem get_ngrok_url_without_tcp_tunnel :
  get_ngrok_url example_endpoint
    (agent_answer [tunnel_entry "http" "https://example.ngrok.io"])
  = ([Enter "get_ngrok_url"; HttpGet example_endpoint], Return ImplicitNone)
  /\ main example_environ ∅
       (agent_answer [tunnel_entry "http" "https://example.ngrok.io"])
       (provider_answer 200)
     = ([Enter "get_ngrok_url"; HttpGet example_endpoint], Raise TypeError).
Proof. split; vm_compute; reflexivity. Qed.

(** C2, counterexample.  The URL ["tcp://[::1]:5555"] is split into four
    components, not two; and the scheme is removed wherever it stands in the
    URL, not only at its front, so that ["tcp://atcp://b:1"] gives
    [["ab", "1"]] where taking off a leading scheme gives three components. *)
Lemma get_ngrok_url_not_two_components :
  result (get_ngrok_url example_endpoint
            (agent_answer [tunnel_entry "tcp" "tcp://[::1]:5555"]))
  = Return (SplitList ["["; ""; "1]"; "5555"])
  /\ split_after_leading_scheme "tcp://[::1]:5555" = ["["; ""; "1]"; "5555"]
  /\ result (get_ngrok_url example_endpoint
               (agent_answer [tunnel_entry "tcp" "tcp://atcp://b:1"]))
     = Return (SplitList ["ab"; "1"])
  /\ split_after_leading_scheme "tcp://atcp://b:1" = ["atcp"; "//b"; "1"].
Proof. repeat split; vm_compute; reflexivity. Qed.

(** C2, amended.  When the answer has status 200 and the first entry of
    its ["tunnels"] list with proto ["tcp"] comes after entries that are
    passed over, [get_ngrok_url] returns, printing nothing, the list
    [public_url.replace("tcp://", "").split(":")]: every occurrence of the
    scheme is removed and the list has one component more than there are
    colons left.  For a URL ["tcp://" + host + ":" + port] in which host
    and port hold no colon and the scheme does not occur again, that list
    is [[host, port]]. *)
Theorem get_ngrok_url_first_tcp_tunnel (url : string) (r : response)
    (d entry : gmap string json) (before after : list json) (public_url : string) :
  status_code r = 200 ->
  decoded r = Some (JDict d) ->
  d !! "tunnels" = Some (JList (before ++ JDict entry :: after)) ->
  forallb passed_over before = true ->
  entry !! "proto" = Some (JStr "tcp") ->
  entry !! "public_url" = Some (JStr public_url) ->
  get_ngrok_url url (Responded r)
  = ([Enter "get_ngrok_url"; HttpGet url],
     Return (SplitList (PyStr.split_colon (PyStr.replace "tcp://" "" public_url))))
  /\ forall host port : string,
       public_url = "tcp://" ++ host ++ ":" ++ port ->
       colon_free host = true -> colon_free port = true ->
       occurs "tcp://" (host ++ ":" ++ port) = false ->
       PyStr.split_colon (PyStr.replace "tcp://" "" public_url) = [host; port].
Proof.
  intros Hst Hbody Hd Hbefore Hproto Hurl. split.
  - destruct r as [st body]. cbn [status_code decoded] in Hst, Hbody. subst st body.
    apply (get_ngrok_url_of_loop url d _ (Some _) Hd).
    rewrite (scan_tunnels_passes_over _ _ Hbefore).
    now apply scan_tunnels_tcp_entry.
  - intros host port -> Hh Hp Hocc.
    rewrite (replace_scheme_prefix _ Hocc). now apply split_colon_host_port.
Qed.

Lemma get_ngrok_url_first_tcp_tunnel_witness :
  get_ngrok_url example_endpoint
    (agent_answer [tunnel_entry "http" "https://example.ngrok.io";
                   tunnel_entry "tcp" "tcp://1.2.3.4:5555"])
  = ([Enter "get_ngrok_url"; HttpGet example_endpoint],
     Return (SplitList ["1.2.3.4"; "5555"])).
Proof.
  pose proof (get_ngrok_url_first_tcp_tunnel example_endpoint
    (Response 200
       (Some (tunnels_body [tunnel_entry "http" "https://example.ngrok.io";
                            tunnel_entry "tcp" "tcp://1.2.3.4:5555"])))
    {[ "tunnels" := JList [tunnel_entry "http" "https://example.ngrok.io";
                           tunnel_entry "tcp" "tcp://1.2.3.4:5555"] ]}
    {[ "proto" := JStr "tcp"; "public_url" := JStr "tcp://1.2.3.4:5555" ]}
    [tunnel_entry "http" "https://example.ngrok.io"] [] "tcp://1.2.3.4:5555"
    eq_refl eq_refl eq_refl eq_refl eq_refl eq_refl) as [Hrun Hparts].
  unfold agent_answer. rewrite Hrun.
  rewrite (Hparts "1.2.3.4" "5555" eq_refl eq_refl eq_refl eq_refl).
  reflexivity.
Defined.

(** ** [update_cloudflare_dns] *)

Lemma numeric_colon_free (s : string) : numeric s = true -> colon_free s = true.
Proof.
  unfold numeric, colon_free. intros H. apply andb_true_iff in H as [_ H].
  induction (list_ascii_of_string s) as [|c l IH]; [reflexivity|].
  cbn [forallb] in *. apply andb_true_iff in H as [Hc Hl].
  rewrite (IH Hl), andb_true_r.
  destruct c as [[] [] [] [] [] [] [] []]; solve [reflexivity | discriminate Hc].
Qed.

(** The dictionary is built without an event; it fails only on a missing
    second segment or on one that [int] rejects. *)
Lemma request_data_cases (a : dns_args) :
  (exists port target,
     PyStr.split_colon (content a) !! 1%nat = Some port
     /\ PyInt.int port <> None
     /\ request_data a = ([], Return (JDict (data_dict a (default 0 (PyInt.int port)) target))))
  \/ request_data a = ([], Raise IndexError)
  \/ request_data a = ([], Raise ValueError).
Proof.
  unfold request_data, index.
  destruct (PyStr.split_colon (content a)) as [|target [|port rest]];
    cbn [lookup list_lookup]; run.
  - right; left. reflexivity.
  - right; left. reflexivity.
  - unfold int. destruct (PyInt.int port) as [n|] eqn:Hint; run.
    + left. exists port, target. repeat split; [congruence|].
      rewrite Hint. reflexivity.
    + right; right. reflexivity.
Qed.

Lemma request_data_host_port (a : dns_args) (host port : string) (n : Z) :
  content a = host ++ ":" ++ port ->
  colon_free host = true -> colon_free port = true ->
  PyInt.int port = Some n ->
  request_data a = ([], Return (JDict (data_dict a n host))).
Proof.
  intros Hc Hh Hp Hint. unfold request_data.
  rewrite Hc, (split_colon_host_port _ _ Hh Hp).
  unfold index, int. cbn [lookup list_lookup]. run. rewrite Hint. reflexivity.
Qed.

(** Once the dictionary is built the request is sent, and whatever the
    network answers the function returns: the [try] region catches every
    exception raised in it. *)
Lemma update_cloudflare_dns_sends (a : dns_args) (data : json) (net : http_outcome) :
  request_data a = ([], Return data) ->
  exists (log : list line) (v : json),
    update_cloudflare_dns a net
    = (Enter "update_cloudflare_dns"
         :: HttpPut (request_url a) (request_headers a) data :: map Print log,
       Return v).
Proof.
  intros Hdata. unfold update_cloudflare_dns, update_cloudflare_dns_try.
  run. rewrite Hdata. run.
  destruct net as [[status [body|]]|[m|m]]; run;
    try destruct (status =? 200); run;
    solve [ exists [], body; reflexivity
          | eexists [_; _], _; reflexivity
          | eexists [_], _; reflexivity
          | eexists [_; _], _; reflexivity ].
Qed.

(** The parse of the port stands before the [try] statement: when [int]
    rejects the segment nothing is sent and the [ValueError] leaves the
    function. *)
Lemma update_raises_ValueError (a : dns_args) (port : string) (net : http_outcome) :
  PyStr.split_colon (content a) !! 1%nat = Some port ->
  PyInt.int port = None ->
  update_cloudflare_dns a net = ([Enter "update_cloudflare_dns"], Raise ValueError).
Proof.
  intros Hseg Hint. unfold update_cloudflare_dns, request_data, index, int.
  rewrite Hseg. run. rewrite Hint. reflexivity.
Qed.

(** C3, counterexample.  A port of 4301 digits is numeric, yet [int] refuses
    it: the [ValueError] leaves [update_cloudflare_dns] before the [try]
    statement, and no body is built and no request sent. *)
Lemma update_cloudflare_dns_port_over_limit :
  numeric (zeros 4301) = true
  /\ colon_free "1.2.3.4" = true
  /\ update_cloudflare_dns
       (DnsArgs "token" "zone" "record" "mc.example.com" ("1.2.3.4:" ++ zeros 4301)
          "_minecraft" "_tcp" None)
       (provider_answer 200)
     = ([Enter "update_cloudflare_dns"], Raise ValueError).
Proof.
  split; [apply numeric_zeros|]. split; [reflexivity|].
  apply (update_raises_ValueError _ (zeros 4301)).
  - cbn [content].
    change ("1.2.3.4:" ++ zeros 4301) with ("1.2.3.4" ++ ":" ++ zeros 4301).
    rewrite split_colon_host_port; [reflexivity|reflexivity|].
    apply numeric_colon_free, numeric_zeros.
  - apply int_over_limit; [apply numeric_zeros|].
    unfold within_digit_limit. rewrite length_zeros. reflexivity.
Qed.

(** C3, amended.  For a content [host:port] whose port is a run of at most
    4300 digits (and whose host holds no colon), the request carries a body
    of type ["SRV"] with the given content, the ttl (60 when none is
    given), and in its ["data"] priority 0, weight 0, the port as the
    integer the digits denote and the host as target. *)
Theorem update_cloudflare_dns_request_body (a : dns_args) (host port : string)
    (net : http_outcome) :
  content a = host ++ ":" ++ port ->
  colon_free host = true ->
  numeric port = true ->
  within_digit_limit port = true ->
  exists (body data : gmap string json) (log : list line) (v : json),
    update_cloudflare_dns a net
    = (Enter "update_cloudflare_dns"
         :: HttpPut (request_url a) (request_headers a) (JDict body) :: map Print log,
       Return v)
    /\ body !! "type" = Some (JStr "SRV")
    /\ body !! "name" = Some (JStr (name a))
    /\ body !! "content" = Some (JStr (content a))
    /\ body !! "ttl" = Some (JInt (default 60 (ttl a)))
    /\ body !! "data" = Some (JDict data)
    /\ data !! "service" = Some (JStr (service a))
    /\ data !! "proto" = Some (JStr (proto a))
    /\ data !! "name" = Some (JStr (name a))
    /\ data !! "priority" = Some (JInt 0)
    /\ data !! "weight" = Some (JInt 0)
    /\ data !! "port" = Some (JInt (decimal_value port))
    /\ data !! "target" = Some (JStr host).
Proof.
  intros Hc Hh Hp Hlim.
  pose proof (request_data_host_port a host port (decimal_value port) Hc Hh
                (numeric_colon_free _ Hp) (int_numeric _ Hp Hlim)) as Hdata.
  destruct (update_cloudflare_dns_sends a _ net Hdata) as (log & v & Hrun).
  eexists _, _, log, v. split; [exact Hrun|].
  repeat split; vm_compute; reflexivity.
Qed.

Lemma update_cloudflare_dns_request_body_witness :
  exists (body data : gmap string json) (rest : list event),
    trace (update_cloudflare_dns
             (DnsArgs "token" "zone" "record" "mc.example.com" "1.2.3.4:5555"
                "_minecraft" "_tcp" None)
             (provider_answer 200))
    = Enter "update_cloudflare_dns"
        :: HttpPut "https://api.cloudflare.com/client/v4/zones/zone/dns_records/record"
             {[ "Authorization" := "Bearer token"; "Content-Type" := "application/json" ]}
             (JDict body) :: rest
    /\ body !! "type" = Some (JStr "SRV")
    /\ body !! "content" = Some (JStr "1.2.3.4:5555")
    /\ body !! "ttl" = Some (JInt 60)
    /\ body !! "data" = Some (JDict data)
    /\ data !! "priority" = Some (JInt 0)
    /\ data !! "weight" = Some (JInt 0)
    /\ data !! "port" = Some (JInt 5555)
    /\ data !! "target" = Some (JStr "1.2.3.4").
Proof.
  destruct (update_cloudflare_dns_request_body
              (DnsArgs "token" "zone" "record" "mc.example.com" "1.2.3.4:5555"
                 "_minecraft" "_tcp" None)
              "1.2.3.4" "5555" (provider_answer 200) eq_refl eq_refl eq_refl eq_refl)
    as (body & data & log & v & Hrun & Htype & _ & Hcontent & Httl & Hdata
        & _ & _ & _ & Hprio & Hweight & Hport & Htarget).
  exists body, data, (map Print log). rewrite Hrun.
  repeat split; assumption.
Defined.

(** C6.  When the second colon-delimited segment of the content is not
    accepted by [int], the [ValueError] of the parse leaves
    [update_cloudflare_dns]: the dictionary is evaluated before the [try]
    statement, so nothing is sent, nothing is printed and nothing is
    returned. *)
Theorem update_cloudflare_dns_non_numeric_port (a : dns_args) (port : string)
    (net : http_outcome) :
  PyStr.split_colon (content a) !! 1%nat = Some port ->
  PyInt.int port = None ->
  update_cloudflare_dns a net = ([Enter "update_cloudflare_dns"], Raise ValueError).
Proof. exact (update_raises_ValueError a port net). Qed.

Lemma update_cloudflare_dns_non_numeric_port_witness :
  PyStr.split_colon "1.2.3.4:http" !! 1%nat = Some "http"
  /\ PyInt.int "http" = None
  /\ update_cloudflare_dns
       (DnsArgs "token" "zone" "record" "mc.example.com" "1.2.3.4:http"
          "_minecraft" "_tcp" None)
       (provider_answer 200)
     = ([Enter "update_cloudflare_dns"], Raise ValueError).
Proof.
  split; [reflexivity|]. split; [reflexivity|].
  apply (update_cloudflare_dns_non_numeric_port
           (DnsArgs "token" "zone" "record" "mc.example.com" "1.2.3.4:http"
              "_minecraft" "_tcp" None) "http"); reflexivity.
Defined.

(** C8.  Once the request is sent: on a 200 response [update_cloudflare_dns]
    returns the decoded body; on any other status it prints the status and
    the decoded body and returns [None]; on a fault of the HTTP library it
    prints a line and returns [None].  A response whose text is not JSON
    has no decoded body: the error of decoding is caught as well and [None]
    is returned.  In no case does the function raise. *)
Theorem update_cloudflare_dns_result (a : dns_args) (data : json) :
  request_data a = ([], Return data) ->
  let sent :=
    [Enter "update_cloudflare_dns"; HttpPut (request_url a) (request_headers a) data] in
  (forall r v, status_code r = 200 -> decoded r = Some v ->
     update_cloudflare_dns a (Responded r) = (sent, Return v))
  /\ (forall r v, status_code r <> 200 -> decoded r = Some v ->
        update_cloudflare_dns a (Responded r)
        = ((sent ++ [Print (Text ("Error updating Cloudflare DNS: HTTP "
                                    ++ pretty (status_code r)));
                     Print (Repr v)])%list,
           Return JNull))
  /\ (forall m,
        update_cloudflare_dns a (Failed (RequestFault m))
        = ((sent ++ [Print (TextExn "Network error occurred: " (RequestException m))])%list,
           Return JNull))
  /\ (forall m,
        update_cloudflare_dns a (Failed (OtherFault m))
        = ((sent ++ [Print (TextExn "Unexpected error: " (OtherException m))])%list,
           Return JNull))
  /\ (forall r, decoded r = None ->
        exists log, update_cloudflare_dns a (Responded r)
                    = ((sent ++ map Print log)%list, Return JNull)).
Proof.
  intros Hdata sent. subst sent.
  unfold update_cloudflare_dns, update_cloudflare_dns_try. run. rewrite Hdata. run.
  repeat split.
  - intros [st body] v Hst Hbody. cbn [status_code decoded] in *. subst. reflexivity.
  - intros [st body] v Hst Hbody. cbn [status_code decoded] in *. subst.
    apply Z.eqb_neq in Hst. run. rewrite Hst. reflexivity.
  - intros [st body] Hbody. cbn [status_code decoded] in *. subst. run.
    destruct (st =? 200); run.
    + exists [TextExn "Network error occurred: " RequestsJSONDecodeError]. reflexivity.
    + eexists [_; _]. reflexivity.
Qed.

Lemma update_cloudflare_dns_result_witness :
  let a := DnsArgs "token" "zone" "record" "mc.example.com" "1.2.3.4:5555"
             "_minecraft" "_tcp" None in
  update_cloudflare_dns a (provider_answer 200)
  = ([Enter "update_cloudflare_dns";
      HttpPut (request_url a) (request_headers a) (JDict (data_dict a 5555 "1.2.3.4"))],
     Return (JDict {[ "success" := JBool true ]}))
  /\ update_cloudflare_dns a (provider_answer 403)
     = ([Enter "update_cloudflare_dns";
         HttpPut (request_url a) (request_headers a) (JDict (data_dict a 5555 "1.2.3.4"));
         Print (Text "Error updating Cloudflare DNS: HTTP 403");
         Print (Repr (JDict {[ "success" := JBool false ]}))],
        Return JNull).
Proof.
  intros a.
  destruct (update_cloudflare_dns_result a (JDict (data_dict a 5555 "1.2.3.4")) eq_refl)
    as (Hok & Herr & _).
  split.
  - exact (Hok (Response 200 (Some (JDict {[ "success" := JBool true ]})))
             (JDict {[ "success" := JBool true ]}) eq_refl eq_refl).
  - exact (Herr (Response 403 (Some (JDict {[ "success" := JBool false ]})))
             (JDict {[ "success" := JBool false ]}) ltac:(discriminate) eq_refl).
Defined.

(** C9.  The request of a call is fixed by the arguments: the URL, the
    headers and the body do not depend on what the network answers, and two
    calls in a row with the same arguments send the same request twice (or
    none, when the dictionary cannot be built). *)
Theorem update_cloudflare_dns_same_request (a : dns_args) (net1 net2 : http_outcome) :
  let request :=
    match result (request_data a) with
    | Return data => [HttpPut (request_url a) (request_headers a) data]
    | Raise _ => []
    end in
  requests_sent (update_cloudflare_dns a net1) = request
  /\ requests_sent (update_cloudflare_dns a net2) = request
  /\ requests_sent (do update_cloudflare_dns a net1 then update_cloudflare_dns a net2)
     = (request ++ request)%list.
Proof.
  assert (Hprints : forall log, List.filter is_request (map Print log) = []).
  { induction log as [|l log IH]; [reflexivity|exact IH]. }
  assert (Hone : forall net data, request_data a = ([], Return data) ->
            exists log v, update_cloudflare_dns a net
              = (Enter "update_cloudflare_dns"
                   :: HttpPut (request_url a) (request_headers a) data :: map Print log,
                 Return v)
              /\ requests_sent (update_cloudflare_dns a net)
                 = [HttpPut (request_url a) (request_headers a) data]).
  { intros net data Hdata.
    destruct (update_cloudflare_dns_sends a data net Hdata) as (log & v & Hrun).
    exists log, v. split; [exact Hrun|].
    unfold requests_sent. rewrite Hrun. cbn [trace fst List.filter is_request].
    now rewrite Hprints. }
  destruct (request_data_cases a) as [(port & target & _ & _ & Hdata)|[Hdata|Hdata]].
  - destruct (Hone net1 _ Hdata) as (log1 & v1 & Hrun1 & Hsent1).
    destruct (Hone net2 _ Hdata) as (log2 & v2 & Hrun2 & Hsent2).
    rewrite Hdata. cbn [result snd]. repeat split; [exact Hsent1|exact Hsent2|].
    unfold requests_sent in *. unfold bind. rewrite Hrun1. cbn [snd fst trace].
    rewrite List.filter_app. rewrite Hrun1, Hrun2 in *. cbn [trace fst] in *.
    now rewrite Hsent1, Hsent2.
  - assert (Hraise : forall net, update_cloudflare_dns a net
                                 = ([Enter "update_cloudflare_dns"], Raise IndexError)).
    { intros net. unfold update_cloudflare_dns. run. rewrite Hdata. reflexivity. }
    rewrite Hdata. unfold requests_sent, bind. rewrite !Hraise. repeat split.
  - assert (Hraise : forall net, update_cloudflare_dns a net
                                 = ([Enter "update_cloudflare_dns"], Raise ValueError)).
    { intros net. unfold update_cloudflare_dns. run. rewrite Hdata. reflexivity. }
    rewrite Hdata. unfold requests_sent, bind. rewrite !Hraise. repeat split.
Qed.

(** ** The script body *)

Section Main.

Local Open Scope list_scope.

Variables (os_environ dotenv : gmap string string) (get_net put_net : http_outcome).

Lemma main_unconfigured :
  forallb truthy (map (getenv (dotenv ∪ os_environ)) required_names) = false ->
  main os_environ dotenv get_net put_net
  = ([Print (Text "Missing one or more required environment variables.")],
     Raise (SystemExit 1)).
Proof.
  intros H. unfold main. cbn zeta.
  change [getenv (dotenv ∪ os_environ) "CLOUDFLARE_API_TOKEN";
          getenv (dotenv ∪ os_environ) "CLOUDFLARE_ZONE_ID";
          getenv (dotenv ∪ os_environ) "CLOUDFLARE_RECORD_ID";
          getenv (dotenv ∪ os_environ) "NGROK_API_ENDPOINT"]
    with (map (getenv (dotenv ∪ os_environ)) required_names).
  rewrite H. reflexivity.
Qed.

(** What a configured run does, by what the lookup returned. *)
Lemma main_configured (tg : list event) (r : ngrok_result) :
  forallb truthy (map (getenv (dotenv ∪ os_environ)) required_names) = true ->
  get_ngrok_url (format (getenv (dotenv ∪ os_environ) "NGROK_API_ENDPOINT")) get_net
  = (tg, Return r) ->
  main os_environ dotenv get_net put_net
  = match r with
    | NonePair => (tg ++ [Print (Text "Failed to retrieve ngrok URL and port.")], Return tt)
    | ImplicitNone => (tg, Raise TypeError)
    | SplitList [host; port] =>
        if PyStr.truthy host && PyStr.truthy port
        then
          let update :=
            update_cloudflare_dns (script_args (dotenv ∪ os_environ) host port) put_net in
          (tg ++ Print (Text ("Ngrok Host: " ++ host ++ ", Port: " ++ port)%string)
              :: trace update
              ++ match result update with
                 | Return v => [Print (Dumps v)]
                 | Raise _ => []
                 end,
           match result update with
           | Return _ => Return tt
           | Raise e => Raise e
           end)
        else (tg ++ [Print (Text "Failed to retrieve ngrok URL and port.")], Return tt)
    | SplitList _ => (tg, Raise ValueError)
    end.
Proof.
  intros H Hget. unfold main. cbn zeta.
  change [getenv (dotenv ∪ os_environ) "CLOUDFLARE_API_TOKEN";
          getenv (dotenv ∪ os_environ) "CLOUDFLARE_ZONE_ID";
          getenv (dotenv ∪ os_environ) "CLOUDFLARE_RECORD_ID";
          getenv (dotenv ∪ os_environ) "NGROK_API_ENDPOINT"]
    with (map (getenv (dotenv ∪ os_environ)) required_names).
  rewrite H. cbn [negb]. unfold main_after_check.
  unfold bind at 1. rewrite Hget. cbn [fst snd].
  destruct r as [|[|host [|port [|extra rest]]]|]; cbn [unpack_pair]; run;
    rewrite ?app_nil_r; try reflexivity.
  cbn [truthy format].
  destruct (PyStr.truthy host && PyStr.truthy port); run; [|reflexivity].
  fold (script_args (dotenv ∪ os_environ) host port).
  destruct (update_cloudflare_dns (script_args (dotenv ∪ os_environ) host port) put_net)
    as [tu [v|e]]; run; rewrite ?app_nil_r; reflexivity.
Qed.

End Main.

Lemma in_prints (ev : event) (log : list line) :
  In ev (map Print log) -> exists l, ev = Print l.
Proof.
  intros H. apply in_map_iff in H as (l & <- & _). now exists l.
Qed.

(** Nothing in the trace of [get_ngrok_url] is of [update_cloudflare_dns]. *)
Lemma lookup_trace_has_no_update (url : string) (log : list line) (tail : list line)
    (ev : event) :
  In ev (Enter "get_ngrok_url" :: HttpGet url :: map Print log ++ map Print tail) ->
  ev <> Enter "update_cloudflare_dns" /\ forall u h b, ev <> HttpPut u h b.
Proof.
  rewrite <- map_app. intros [<-|[<-|H]].
  - split; [discriminate|]. intros u h b; discriminate.
  - split; [discriminate|]. intros u h b; discriminate.
  - apply in_prints in H as [l ->]. split; [discriminate|]. intros u h b; discriminate.
Qed.

(** C4.  When one of the four required names is missing from the
    environment, the script prints its diagnostic and ends through
    [exit(1)]: that line is all it does, no request is sent, and the exit
    status is 1. *)
Theorem main_missing_configuration (os_environ dotenv : gmap string string)
    (get_net put_net : http_outcome) (missing : string) :
  In missing required_names ->
  getenv (dotenv ∪ os_environ) missing = None ->
  main os_environ dotenv get_net put_net
  = ([Print (Text "Missing one or more required environment variables.")],
     Raise (SystemExit 1))
  /\ exit_status (result (main os_environ dotenv get_net put_net)) = 1
  /\ requests_sent (main os_environ dotenv get_net put_net) = [].
Proof.
  intros Hin Hnone.
  assert (Hrun : main os_environ dotenv get_net put_net
                 = ([Print (Text "Missing one or more required environment variables.")],
                    Raise (SystemExit 1))).
  { apply main_unconfigured. apply not_true_is_false. intros Hall.
    rewrite forallb_forall in Hall.
    specialize (Hall _ (in_map (getenv (dotenv ∪ os_environ)) _ _ Hin)).
    rewrite Hnone in Hall. discriminate Hall. }
  rewrite Hrun. repeat split.
Qed.

Lemma main_missing_configuration_witness :
  In "CLOUDFLARE_ZONE_ID" required_names
  /\ getenv (∅ ∪ delete "CLOUDFLARE_ZONE_ID" example_environ) "CLOUDFLARE_ZONE_ID" = None
  /\ main (delete "CLOUDFLARE_ZONE_ID" example_environ) ∅
       (agent_answer [tunnel_entry "tcp" "tcp://1.2.3.4:5555"]) (provider_answer 200)
     = ([Print (Text "Missing one or more required environment variables.")],
        Raise (SystemExit 1)).
Proof.
  split; [right; left; reflexivity|]. split; [reflexivity|].
  apply (main_missing_configuration (delete "CLOUDFLARE_ZONE_ID" example_environ) ∅
           (agent_answer [tunnel_entry "tcp" "tcp://1.2.3.4:5555"]) (provider_answer 200)
           "CLOUDFLARE_ZONE_ID"); [right; left; reflexivity | reflexivity].
Defined.

(** C5, counterexample.  With its configuration complete, a run whose
    tunnel has the port ["http"] ends with status 1: [int] raises in [update_cloudflare_dns],
    outside the [try] statement. *)
Lemma main_exit_status_not_zero :
  forallb truthy (map (getenv (∅ ∪ example_environ)) required_names) = true
  /\ main example_environ ∅
       (agent_answer [tunnel_entry "tcp" "tcp://1.2.3.4:http"]) (provider_answer 200)
     = ([Enter "get_ngrok_url"; HttpGet example_endpoint;
         Print (Text "Ngrok Host: 1.2.3.4, Port: http");
         Enter "update_cloudflare_dns"],
        Raise ValueError)
  /\ exit_status
       (result (main example_environ ∅
                  (agent_answer [tunnel_entry "tcp" "tcp://1.2.3.4:http"])
                  (provider_answer 200))) = 1.
Proof. repeat split; vm_compute; reflexivity. Qed.

Lemma truthy_nonempty (s : string) : PyStr.truthy s = true <-> s <> "".
Proof. destruct s; split; intros H; try reflexivity; try discriminate; congruence. Qed.

(** C5, amended.  With the four required values present and not empty,
    the process ends with status 0 when [get_ngrok_url] returns
    [(None, None)], and when it returns a list [[host, port]] in which host
    or port is empty or the port is accepted by [int]; with host and port
    not empty and a port that [int] rejects it ends with status 1. *)
Theorem main_exit_status (os_environ dotenv : gmap string string)
    (get_net put_net : http_outcome) :
  let environ := dotenv ∪ os_environ in
  let lookup :=
    result (get_ngrok_url (format (getenv environ "NGROK_API_ENDPOINT")) get_net) in
  let status := exit_status (result (main os_environ dotenv get_net put_net)) in
  forallb truthy (map (getenv environ) required_names) = true ->
  (lookup = Return NonePair -> status = 0)
  /\ (forall host port, lookup = Return (SplitList [host; port]) ->
        (host = "" \/ port = "" \/ PyInt.int port <> None -> status = 0)
        /\ (host <> "" -> port <> "" -> PyInt.int port = None -> status = 1)).
Proof.
  intros environ lookup status Hconf. subst lookup status.
  destruct (get_ngrok_url_cases (format (getenv environ "NGROK_API_ENDPOINT")) get_net)
    as (log & r & Hget & Hr).
  rewrite (main_configured os_environ dotenv get_net put_net _ r Hconf Hget).
  fold environ. rewrite Hget. cbn [result snd]. split.
  - intros [= ->]. reflexivity.
  - intros host port [= ->].
    assert (Hfree : colon_free host = true /\ colon_free port = true).
    { destruct Hr as [Hr|[Hr|[s Hr]]]; try discriminate Hr.
      injection Hr as Hr. pose proof (split_colon_pieces_colon_free s) as Hall.
      rewrite <- Hr in Hall. inversion Hall as [|? ? Hh Hrest]; subst.
      inversion Hrest; subst. now split. }
    destruct Hfree as [Hh Hp].
    pose proof (split_colon_host_port host port Hh Hp) as Hsplit.
    split.
    + intros Hcase.
      destruct (PyStr.truthy host && PyStr.truthy port) eqn:Htruthy; [|reflexivity].
      apply andb_true_iff in Htruthy as [Hth Htp].
      apply truthy_nonempty in Hth, Htp.
      destruct Hcase as [->|[->|Hint]]; try congruence.
      destruct (PyInt.int port) as [n|] eqn:Hn; [|congruence].
      match goal with |- context [update_cloudflare_dns ?a ?net] =>
        destruct (update_cloudflare_dns_sends a (JDict (data_dict a n host)) net
                    (request_data_host_port a host port n eq_refl Hh Hp Hn))
          as (l & v & Hrun); rewrite Hrun end.
      reflexivity.
    + intros Hho Hpo Hint.
      apply truthy_nonempty in Hho, Hpo. rewrite Hho, Hpo. cbn [andb].
      match goal with |- context [update_cloudflare_dns ?a ?net] =>
        rewrite (update_raises_ValueError a port net) end;
        [reflexivity | unfold script_args; cbn [content]; now rewrite Hsplit | exact Hint].
Qed.


Lemma example_environ_complete :
  forallb truthy (map (getenv (∅ ∪ example_environ)) required_names) = true.
Proof. vm_compute. reflexivity. Qed.

Lemma main_exit_status_witness :
  exit_status
    (result (main example_environ ∅ (Responded (Response 502 None)) (provider_answer 200)))
  = 0
  /\ exit_status
       (result (main example_environ ∅
                  (agent_answer [tunnel_entry "tcp" "tcp://1.2.3.4:5555"])
                  (provider_answer 403)))
     = 0.
Proof.
  split.
  - apply (main_exit_status example_environ ∅ (Responded (Response 502 None))
             (provider_answer 200) example_environ_complete).
    vm_compute. reflexivity.
  - apply (proj2 (main_exit_status example_environ ∅
                    (agent_answer [tunnel_entry "tcp" "tcp://1.2.3.4:5555"])
                    (provider_answer 403) example_environ_complete)
             "1.2.3.4" "5555").
    + vm_compute. reflexivity.
    + right; right. vm_compute. discriminate.
Defined.

(** C10.  In every run, [update_cloudflare_dns] is entered, and a PUT is
    sent, only when [get_ngrok_url] returned a list [[host, port]] with host
    and port not empty.  In a configured run, when the lookup yields a pair
    of which a component is [None] or the empty string, the script prints
    its failure line after the lookup and ends: the GET is the only request
    and [update_cloudflare_dns] is not entered. *)
Theorem main_update_needs_host_and_port (os_environ dotenv : gmap string string)
    (get_net put_net : http_outcome) :
  let environ := dotenv ∪ os_environ in
  let endpoint := format (getenv environ "NGROK_API_ENDPOINT") in
  let lookup := get_ngrok_url endpoint get_net in
  let run := main os_environ dotenv get_net put_net in
  (forall ev, In ev (trace run) ->
     ev = Enter "update_cloudflare_dns" \/ (exists u h b, ev = HttpPut u h b) ->
     exists host port,
       result lookup = Return (SplitList [host; port]) /\ host <> "" /\ port <> "")
  /\ (forallb truthy (map (getenv environ) required_names) = true ->
      forall r host port,
        result lookup = Return r ->
        unpack_pair r = ([], Return (host, port)) ->
        truthy host && truthy port = false ->
        run = ((trace lookup ++ [Print (Text "Failed to retrieve ngrok URL and port.")])%list,
               Return tt)
        /\ requests_sent run = [HttpGet endpoint]
        /\ ~ In (Enter "update_cloudflare_dns") (trace run)).
Proof.
  intros environ endpoint lookup run. subst lookup run.
  destruct (get_ngrok_url_cases endpoint get_net) as (log & r & Hget & Hr).
  assert (Hquiet : forall tail ev,
            In ev (Enter "get_ngrok_url" :: HttpGet endpoint :: map Print log ++ map Print tail)%list ->
            ev = Enter "update_cloudflare_dns" \/ (exists u h b, ev = HttpPut u h b) ->
            False).
  { intros tail ev Hin Hev.
    destruct (lookup_trace_has_no_update _ _ _ _ Hin) as [Hne Hnp].
    destruct Hev as [->|(u & h & b & ->)]; [now apply Hne | now apply (Hnp u h b)]. }
  assert (Hfilter : forall tail,
            List.filter is_request
              (Enter "get_ngrok_url" :: HttpGet endpoint :: map Print log ++ map Print tail)%list
            = [HttpGet endpoint]).
  { intros tail. rewrite <- map_app. cbn [List.filter is_request]. f_equal.
    induction (log ++ tail)%list as [|l ls IH]; [reflexivity|exact IH]. }
  destruct (forallb truthy (map (getenv environ) required_names)) eqn:Hconf.
  - pose proof (main_configured os_environ dotenv get_net put_net _ r Hconf Hget) as Hmain.
    cbn zeta in Hmain. fold environ in Hmain. fold endpoint in Hmain.
    split.
    + intros ev Hin Hev. rewrite Hmain in Hin. rewrite Hget. cbn [result snd].
      destruct r as [|[|host [|port [|extra rest]]]|]; cbn [trace fst] in Hin;
        try (exfalso; apply (Hquiet [] ev); [|exact Hev];
             cbn [map]; rewrite ?app_nil_r; exact Hin);
        try (exfalso; apply (Hquiet [Text "Failed to retrieve ngrok URL and port."] ev);
             [exact Hin|exact Hev]).
      destruct (PyStr.truthy host && PyStr.truthy port) eqn:Htruthy.
      * apply andb_true_iff in Htruthy as [Hh Hp]. apply truthy_nonempty in Hh, Hp.
        now exists host, port.
      * exfalso. apply (Hquiet [Text "Failed to retrieve ngrok URL and port."] ev);
          [exact Hin|exact Hev].
    + intros _ r' host port Hr' Hpair Hfalsy.
      rewrite Hget in Hr'. cbn [result snd] in Hr'. injection Hr' as <-.
      assert (Hrun : main os_environ dotenv get_net put_net
                     = ((trace (get_ngrok_url endpoint get_net)
                           ++ [Print (Text "Failed to retrieve ngrok URL and port.")])%list,
                        Return tt)).
      { rewrite Hmain, Hget. cbn [trace fst].
        destruct r as [|[|h [|p [|extra rest]]]|]; cbn [unpack_pair] in Hpair;
          try discriminate Hpair; [reflexivity|].
        injection Hpair as <- <-. cbn [truthy] in Hfalsy. now rewrite Hfalsy. }
      split; [exact Hrun|]. rewrite Hrun, Hget. cbn [trace fst]. split.
      * unfold requests_sent. cbn [trace fst].
        exact (Hfilter [Text "Failed to retrieve ngrok URL and port."]).
      * intros Hin. apply (Hquiet [Text "Failed to retrieve ngrok URL and port."] _ Hin).
        now left.
  - pose proof (main_unconfigured os_environ dotenv get_net put_net Hconf) as Hmain.
    split; [|discriminate].
    intros ev Hin Hev. rewrite Hmain in Hin. cbn [trace fst] in Hin.
    destruct Hin as [<-|[]]. destruct Hev as [Hev|(u & h & b & Hev)]; discriminate Hev.
Qed.


Lemma example_environ_endpoint :
  format (getenv (∅ ∪ example_environ) "NGROK_API_ENDPOINT") = example_endpoint.
Proof. vm_compute. reflexivity. Qed.

Lemma main_update_needs_host_and_port_witness :
  (exists host port,
     result (get_ngrok_url example_endpoint
               (agent_answer [tunnel_entry "tcp" "tcp://1.2.3.4:5555"]))
     = Return (SplitList [host; port]) /\ host <> "" /\ port <> "")
  /\ main example_environ ∅ (agent_answer [tunnel_entry "tcp" "tcp://:5555"])
       (provider_answer 200)
     = ([Enter "get_ngrok_url"; HttpGet example_endpoint;
         Print (Text "Failed to retrieve ngrok URL and port.")],
        Return tt).
Proof.
  split.
  - assert (Hin : In (Enter "update_cloudflare_dns")
                    (trace (main example_environ ∅
                              (agent_answer [tunnel_entry "tcp" "tcp://1.2.3.4:5555"])
                              (provider_answer 200)))).
    { vm_compute. right; right; right. left. reflexivity. }
    pose proof (proj1 (main_update_needs_host_and_port example_environ ∅
                         (agent_answer [tunnel_entry "tcp" "tcp://1.2.3.4:5555"])
                         (provider_answer 200))
                  (Enter "update_cloudflare_dns") Hin (or_introl eq_refl)) as Hpair.
    rewrite example_environ_endpoint in Hpair. exact Hpair.
  - assert (Hlookup :
      result (get_ngrok_url (format (getenv (∅ ∪ example_environ) "NGROK_API_ENDPOINT"))
                (agent_answer [tunnel_entry "tcp" "tcp://:5555"]))
      = Return (SplitList [""; "5555"])).
    { vm_compute. reflexivity. }
    pose proof (proj2 (main_update_needs_host_and_port example_environ ∅
                         (agent_answer [tunnel_entry "tcp" "tcp://:5555"])
                         (provider_answer 200))
                  example_environ_complete (SplitList [""; "5555"]) (Some "") (Some "5555")
                  Hlookup eq_refl eq_refl) as [Hrun _].
    refine (eq_trans Hrun _). vm_compute. reflexivity.
Defined.

(** * Further properties of the script *)

(** ** [get_ngrok_url] *)

(** Whatever the network answers, [get_ngrok_url] raises nothing and sends
    its one GET; it returns [(None, None)] after exactly one printed line,
    or it prints nothing and returns [None] or the list of a split. *)
Theorem get_ngrok_url_contains_failures (url : string) (net : http_outcome) :
  (exists l, get_ngrok_url url net
             = ([Enter "get_ngrok_url"; HttpGet url; Print l], Return NonePair))
  \/ get_ngrok_url url net = ([Enter "get_ngrok_url"; HttpGet url], Return ImplicitNone)
  \/ (exists s, get_ngrok_url url net
                = ([Enter "get_ngrok_url"; HttpGet url],
                   Return (SplitList (PyStr.split_colon s)))).
Proof.
  pose (post := fun m : M ngrok_result =>
    (exists l, m = ([Enter "get_ngrok_url"; HttpGet url; Print l], Return NonePair))
    \/ m = ([Enter "get_ngrok_url"; HttpGet url], Return ImplicitNone)
    \/ (exists s, m = ([Enter "get_ngrok_url"; HttpGet url],
                       Return (SplitList (PyStr.split_colon s))))).
  change (post (get_ngrok_url url net)).
  assert (Hloop : forall items,
            post (do emit (Enter "get_ngrok_url") then
                  let* returned :=
                    try_except (do emit (HttpGet url) then scan_tunnels items)
                      get_ngrok_url_except in
                  ret (default ImplicitNone returned))).
  { intros items. unfold post.
    destruct (scan_tunnels_cases items) as [H|[[s H]|(e & H & H1 & H2)]];
      rewrite H; run.
    - right; left. reflexivity.
    - right; right. now exists s.
    - unfold get_ngrok_url_except. rewrite H1, H2. run. left. eexists. reflexivity. }
  unfold get_ngrok_url, get_ngrok_url_try.
  destruct net as [[status body]|f]; run.
  - destruct (status =? 200); run; [|left; eexists; reflexivity].
    destruct body as [body|]; run; [|left; eexists; reflexivity].
    destruct body as [| | | | |?|d]; run; try (left; eexists; reflexivity).
    destruct (d !! "tunnels") as [tunnels|]; run; [|left; eexists; reflexivity].
    destruct tunnels; run; try (left; eexists; reflexivity);
      match goal with |- context [scan_tunnels ?l] =>
        specialize (Hloop l); revert Hloop; run; exact (fun H => H) end.
  - destruct f; run; left; eexists; reflexivity.
Qed.

(** A fault of the HTTP library is caught: a [RequestException] by the
    first clause, anything else by the second; each prints its line and
    returns [(None, None)]. *)
Theorem get_ngrok_url_on_fault (url msg : string) :
  get_ngrok_url url (Failed (RequestFault msg))
  = ([Enter "get_ngrok_url"; HttpGet url;
      Print (TextExn "Network error occurred: " (RequestException msg))],
     Return NonePair)
  /\ get_ngrok_url url (Failed (OtherFault msg))
     = ([Enter "get_ngrok_url"; HttpGet url;
         Print (TextExn "Error: " (OtherException msg))],
        Return NonePair).
Proof. split; reflexivity. Qed.

(** A 200 answer that cannot be read: a text that is not JSON, a JSON value
    that is not an object, an object without ["tunnels"], or a ["tunnels"]
    that is null, a boolean or a number.  Each ends in the second [except]
    clause, with the exception named and [(None, None)] returned. *)
Theorem get_ngrok_url_unreadable_answer (url : string) (r : response) :
  status_code r = 200 ->
  let failed e :=
    get_ngrok_url url (Responded r)
    = ([Enter "get_ngrok_url"; HttpGet url; Print (TextExn "Error: " e)],
       Return NonePair) in
  (decoded r = None -> failed JSONDecodeError)
  /\ (forall v, decoded r = Some v ->
        match v with JDict _ => False | _ => True end -> failed TypeError)
  /\ (forall d, decoded r = Some (JDict d) -> d !! "tunnels" = None ->
        failed (KeyError "tunnels"))
  /\ (forall d t, decoded r = Some (JDict d) -> d !! "tunnels" = Some t ->
        match t with JList _ | JDict _ | JStr _ => False | _ => True end ->
        failed TypeError).
Proof.
  destruct r as [status body]. cbn [status_code decoded]. intros ->. cbn zeta.
  unfold get_ngrok_url, get_ngrok_url_try. run. cbn [Z.eqb Pos.eqb]. run.
  repeat split.
  - intros ->. reflexivity.
  - intros v -> Hv. destruct v; try reflexivity. destruct Hv.
  - intros d -> Hd. run. rewrite Hd. reflexivity.
  - intros d t -> Hd Ht. run. rewrite Hd. destruct t; try reflexivity; destruct Ht.
Qed.

Lemma get_ngrok_url_unreadable_answer_witness :
  get_ngrok_url example_endpoint (Responded (Response 200 None))
  = ([Enter "get_ngrok_url"; HttpGet example_endpoint;
      Print (TextExn "Error: " JSONDecodeError)],
     Return NonePair)
  /\ get_ngrok_url example_endpoint (Responded (Response 200 (Some (JDict ∅))))
     = ([Enter "get_ngrok_url"; HttpGet example_endpoint;
         Print (TextExn "Error: " (KeyError "tunnels"))],
        Return NonePair).
Proof.
  split.
  - exact (proj1 (get_ngrok_url_unreadable_answer example_endpoint (Response 200 None)
                    eq_refl) eq_refl).
  - exact (proj1 (proj2 (proj2 (get_ngrok_url_unreadable_answer example_endpoint
                                  (Response 200 (Some (JDict ∅))) eq_refl)))
             ∅ eq_refl eq_refl).
Defined.

Lemma scan_tunnels_unusable (tunnel : json) (rest : list json) :
  unusable tunnel = true ->
  exists e, scan_tunnels (tunnel :: rest) = ([], Raise e)
            /\ is_RequestException e = false /\ is_Exception e = true.
Proof.
  intros H. cbn [scan_tunnels].
  destruct tunnel as [| | | | |?|d]; run; try (eexists; repeat split; reflexivity).
  cbn [unusable] in H.
  destruct (d !! "proto") as [proto|]; run; [|eexists; repeat split; reflexivity].
  destruct (eq_str proto "tcp"); [|discriminate H]. cbn [andb] in H.
  destruct (d !! "public_url") as [[| | | |?| |]|]; run;
    try discriminate H; eexists; repeat split; reflexivity.
Qed.

(** The loop stops at the first entry it cannot use: when such an entry
    comes before any ["tcp"] entry, the lookup fails with one printed line
    and [(None, None)], whatever tunnels follow in the list. *)
Theorem get_ngrok_url_unusable_entry (url : string) (r : response)
    (d : gmap string json) (before after : list json) (entry : json) :
  status_code r = 200 ->
  decoded r = Some (JDict d) ->
  d !! "tunnels" = Some (JList (before ++ entry :: after)) ->
  forallb passed_over before = true ->
  unusable entry = true ->
  exists e,
    get_ngrok_url url (Responded r)
    = ([Enter "get_ngrok_url"; HttpGet url; Print (TextExn "Error: " e)],
       Return NonePair).
Proof.
  destruct r as [status body]. cbn [status_code decoded].
  intros -> -> Hd Hbefore Hentry.
  destruct (scan_tunnels_unusable entry after Hentry) as (e & Hloop & H1 & H2).
  exists e. unfold get_ngrok_url, get_ngrok_url_try. run. cbn [Z.eqb Pos.eqb]. run.
  rewrite Hd. run. rewrite (scan_tunnels_passes_over _ _ Hbefore), Hloop. run.
  unfold get_ngrok_url_except. rewrite H1, H2. reflexivity.
Qed.

Lemma get_ngrok_url_unusable_entry_witness :
  exists e,
    get_ngrok_url example_endpoint
      (agent_answer [tunnel_entry "http" "https://example.ngrok.io";
                     JDict {[ "public_url" := JStr "tcp://0.tcp.ngrok.io:1" ]};
                     tunnel_entry "tcp" "tcp://1.2.3.4:5555"])
    = ([Enter "get_ngrok_url"; HttpGet example_endpoint; Print (TextExn "Error: " e)],
       Return NonePair).
Proof.
  exact (get_ngrok_url_unusable_entry example_endpoint
           (Response 200
              (Some (tunnels_body
                       [tunnel_entry "http" "https://example.ngrok.io";
                        JDict {[ "public_url" := JStr "tcp://0.tcp.ngrok.io:1" ]};
                        tunnel_entry "tcp" "tcp://1.2.3.4:5555"])))
           {[ "tunnels" := JList
                [tunnel_entry "http" "https://example.ngrok.io";
                 JDict {[ "public_url" := JStr "tcp://0.tcp.ngrok.io:1" ]};
                 tunnel_entry "tcp" "tcp://1.2.3.4:5555"] ]}
           [tunnel_entry "http" "https://example.ngrok.io"]
           [tunnel_entry "tcp" "tcp://1.2.3.4:5555"]
           (JDict {[ "public_url" := JStr "tcp://0.tcp.ngrok.io:1" ]})
           eq_refl eq_refl eq_refl eq_refl eq_refl).
Defined.

(** A list that [get_ngrok_url] returns is never empty, and none of its
    components holds a colon. *)
Theorem get_ngrok_url_components (url : string) (net : http_outcome)
    (parts : list string) :
  result (get_ngrok_url url net) = Return (SplitList parts) ->
  parts <> [] /\ Forall (fun part => colon_free part = true) parts.
Proof.
  intros H.
  destruct (get_ngrok_url_cases url net) as (log & r & Hrun & Hr).
  rewrite Hrun in H. cbn [result snd] in H. injection H as ->.
  destruct Hr as [Hr|[Hr|[s Hr]]]; try discriminate Hr.
  injection Hr as ->. split; [|apply split_colon_pieces_colon_free].
  clear Hrun. unfold PyStr.split_colon. generalize (@nil ascii).
  induction s as [|c s IH]; intros cur; cbn [PyStr.split_scan]; [discriminate|].
  destruct (Ascii.eqb c ":"%char); [discriminate|apply IH].
Qed.

Lemma get_ngrok_url_components_witness :
  ["["; ""; "1]"; "5555"] <> []
  /\ Forall (fun part => colon_free part = true) ["["; ""; "1]"; "5555"].
Proof.
  apply (get_ngrok_url_components example_endpoint
           (agent_answer [tunnel_entry "tcp" "tcp://[::1]:5555"])).
  vm_compute. reflexivity.
Defined.

(** With a 200 answer in which every entry of ["tunnels"] has a proto other
    than ["tcp"] (the empty list among them), [get_ngrok_url] prints nothing
    and returns [None], not a tuple. *)
Theorem get_ngrok_url_no_tcp_tunnel (url : string) (r : response)
    (d : gmap string json) (tunnels : list json) :
  status_code r = 200 ->
  decoded r = Some (JDict d) ->
  d !! "tunnels" = Some (JList tunnels) ->
  forallb passed_over tunnels = true ->
  get_ngrok_url url (Responded r)
  = ([Enter "get_ngrok_url"; HttpGet url], Return ImplicitNone).
Proof.
  destruct r as [status body]. cbn [status_code decoded]. intros -> -> Hd Hall.
  now apply (get_ngrok_url_no_tcp_entry url d tunnels).
Qed.

Lemma get_ngrok_url_no_tcp_tunnel_witness :
  get_ngrok_url example_endpoint (agent_answer [])
  = ([Enter "get_ngrok_url"; HttpGet example_endpoint], Return ImplicitNone).
Proof.
  exact (get_ngrok_url_no_tcp_tunnel example_endpoint
           (Response 200 (Some (tunnels_body []))) {[ "tunnels" := JList [] ]} []
           eq_refl eq_refl eq_refl eq_refl).
Defined.

(** The scheme is not required: a ["public_url"] that is already
    [host:port], with no colon in host or port and without the scheme
    inside, is returned as [[host, port]] just the same. *)
Theorem get_ngrok_url_without_scheme (url : string) (r : response)
    (d entry : gmap string json) (before after : list json) (host port : string) :
  status_code r = 200 ->
  decoded r = Some (JDict d) ->
  d !! "tunnels" = Some (JList (before ++ JDict entry :: after)) ->
  forallb passed_over before = true ->
  entry !! "proto" = Some (JStr "tcp") ->
  entry !! "public_url" = Some (JStr (host ++ ":" ++ port)) ->
  colon_free host = true -> colon_free port = true ->
  occurs "tcp://" (host ++ ":" ++ port) = false ->
  get_ngrok_url url (Responded r)
  = ([Enter "get_ngrok_url"; HttpGet url], Return (SplitList [host; port])).
Proof.
  destruct r as [status body]. cbn [status_code decoded].
  intros -> -> Hd Hbefore Hproto Hurl Hh Hp Hocc.
  rewrite (get_ngrok_url_of_loop url d _
             (Some (SplitList (PyStr.split_colon
                                 (PyStr.replace "tcp://" "" (host ++ ":" ++ port))))) Hd).
  - cbn [default]. unfold PyStr.replace.
    rewrite (replace_scan_absent _ _ _ Hocc), (split_colon_host_port _ _ Hh Hp).
    reflexivity.
  - rewrite (scan_tunnels_passes_over _ _ Hbefore).
    now apply scan_tunnels_tcp_entry.
Qed.

Lemma get_ngrok_url_without_scheme_witness :
  get_ngrok_url example_endpoint (agent_answer [tunnel_entry "tcp" "1.2.3.4:5555"])
  = ([Enter "get_ngrok_url"; HttpGet example_endpoint],
     Return (SplitList ["1.2.3.4"; "5555"])).
Proof.
  exact (get_ngrok_url_without_scheme example_endpoint
           (Response 200 (Some (tunnels_body [tunnel_entry "tcp" "1.2.3.4:5555"])))
           {[ "tunnels" := JList [tunnel_entry "tcp" "1.2.3.4:5555"] ]}
           {[ "proto" := JStr "tcp"; "public_url" := JStr "1.2.3.4:5555" ]}
           [] [] "1.2.3.4" "5555"
           eq_refl eq_refl eq_refl eq_refl eq_refl eq_refl eq_refl eq_refl eq_refl).
Defined.

(** ** [update_cloudflare_dns] *)

Lemma request_data_segments (a : dns_args) (target port : string)
    (rest : list string) (n : Z) :
  PyStr.split_colon (content a) = target :: port :: rest ->
  PyInt.int port = Some n ->
  request_data a = ([], Return (JDict (data_dict a n target))).
Proof.
  intros Hsplit Hint. unfold request_data, index, int. rewrite Hsplit.
  cbn [lookup list_lookup]. run. rewrite Hint. reflexivity.
Qed.

Lemma update_cloudflare_dns_cases (a : dns_args) (net : http_outcome) :
  (exists data log v,
     request_data a = ([], Return data)
     /\ update_cloudflare_dns a net
        = (Enter "update_cloudflare_dns"
             :: HttpPut (request_url a) (request_headers a) data :: map Print log,
           Return v))
  \/ (exists e, (e = IndexError \/ e = ValueError)
        /\ request_data a = ([], Raise e)
        /\ update_cloudflare_dns a net = ([Enter "update_cloudflare_dns"], Raise e)).
Proof.
  destruct (request_data_cases a) as [(port & target & _ & _ & Hdata)|[Hdata|Hdata]].
  - left. destruct (update_cloudflare_dns_sends a _ net Hdata) as (log & v & Hrun).
    eexists _, log, v. split; [exact Hdata|exact Hrun].
  - right. exists IndexError. repeat split; [now left|exact Hdata|].
    unfold update_cloudflare_dns. run. now rewrite Hdata.
  - right. exists ValueError. repeat split; [now right|exact Hdata|].
    unfold update_cloudflare_dns. run. now rewrite Hdata.
Qed.

Lemma requests_of_prints (log : list line) : List.filter is_request (map Print log) = [].
Proof. induction log as [|l log IH]; [reflexivity|exact IH]. Qed.

(** Whatever its arguments and whatever the network answers,
    [update_cloudflare_dns] either returns having sent exactly one request,
    the PUT, or raises [IndexError] or [ValueError] having sent and printed
    nothing: it never raises once the request is out. *)
Theorem update_cloudflare_dns_outcomes (a : dns_args) (net : http_outcome) :
  (exists data v,
     result (update_cloudflare_dns a net) = Return v
     /\ requests_sent (update_cloudflare_dns a net)
        = [HttpPut (request_url a) (request_headers a) data])
  \/ (exists e, (e = IndexError \/ e = ValueError)
        /\ update_cloudflare_dns a net = ([Enter "update_cloudflare_dns"], Raise e)).
Proof.
  destruct (update_cloudflare_dns_cases a net)
    as [(data & log & v & _ & Hrun)|(e & He & _ & Hrun)].
  - left. exists data, v. unfold requests_sent. rewrite Hrun.
    cbn [result trace fst snd List.filter is_request].
    now rewrite requests_of_prints.
  - right. now exists e.
Qed.

(** A content without a colon has no second segment: the [IndexError] of
    [content.split(":")[1]] leaves the function before anything is sent. *)
Theorem update_cloudflare_dns_no_colon (a : dns_args) (net : http_outcome) :
  colon_free (content a) = true ->
  update_cloudflare_dns a net = ([Enter "update_cloudflare_dns"], Raise IndexError).
Proof.
  intros H. unfold update_cloudflare_dns, request_data, index, PyStr.split_colon.
  rewrite (split_scan_colon_free _ _ H). reflexivity.
Qed.

Lemma update_cloudflare_dns_no_colon_witness :
  update_cloudflare_dns
    (DnsArgs "token" "zone" "record" "mc.example.com" "1.2.3.4" "_minecraft" "_tcp" None)
    (provider_answer 200)
  = ([Enter "update_cloudflare_dns"], Raise IndexError).
Proof.
  exact (update_cloudflare_dns_no_colon
           (DnsArgs "token" "zone" "record" "mc.example.com" "1.2.3.4"
              "_minecraft" "_tcp" None)
           (provider_answer 200) eq_refl).
Defined.

Lemma int_negative (digits : string) :
  numeric digits = true -> within_digit_limit digits = true ->
  PyInt.int ("-" ++ digits) = Some (- decimal_value digits).
Proof.
  unfold numeric, PyInt.int, decimal_value. intros H Hlim.
  apply andb_true_iff in H as [Hne Hall].
  pose proof (parse_digits_run digits Hall Hlim) as Hparse.
  change (list_ascii_of_string ("-" ++ digits))
    with ("-"%char :: list_ascii_of_string digits).
  assert (Hstrip : PyInt.strip ("-"%char :: list_ascii_of_string digits)
                   = "-"%char :: list_ascii_of_string digits).
  { unfold PyInt.strip. cbn [PyInt.lstrip]. change (PyInt.is_space "-") with false.
    cbn iota. cbn [rev].
    destruct digits as [|c s]; [discriminate Hne|].
    cbn [list_ascii_of_string] in *.
    assert (Hrev : forallb is_digit (rev (c :: list_ascii_of_string s)) = true)
      by now rewrite forallb_reverse.
    destruct (rev (c :: list_ascii_of_string s)) as [|last front] eqn:Hr.
    { apply (f_equal (@length ascii)) in Hr. rewrite length_rev in Hr. discriminate Hr. }
    cbn [forallb] in Hrev. apply andb_true_iff in Hrev as [Hlast _].
    destruct (digit_facts last Hlast) as [Hspace _].
    cbn [app PyInt.lstrip]. rewrite Hspace.
    change (last :: (front ++ ["-"%char])%list)
      with ((last :: front) ++ ["-"%char])%list.
    rewrite <- Hr, rev_app_distr, rev_involutive. reflexivity. }
  rewrite Hstrip. change (Ascii.eqb "-" "-") with true. cbn iota. rewrite Hparse.
  destruct digits as [|c s]; [discriminate Hne|].
  cbn [list_ascii_of_string forallb] in *.
  apply andb_true_iff in Hall as [Hc Hl].
  destruct (digit_facts c Hc) as (_ & _ & _ & Hd).
  cbn [PyInt.scan_digits fold_left]. rewrite Hd, (scan_digits_run _ _ Hl).
  reflexivity.
Qed.

(** The port is not checked against any range: a second segment made of a
    minus sign and at most 4300 digits is accepted, and the request carries
    the negative number as its port. *)
Theorem update_cloudflare_dns_negative_port (a : dns_args) (host digits : string)
    (net : http_outcome) :
  content a = host ++ ":-" ++ digits ->
  colon_free host = true ->
  numeric digits = true ->
  within_digit_limit digits = true ->
  exists log v,
    update_cloudflare_dns a net
    = (Enter "update_cloudflare_dns"
         :: HttpPut (request_url a) (request_headers a)
              (JDict (data_dict a (- decimal_value digits) host))
         :: map Print log,
       Return v).
Proof.
  intros Hc Hh Hd Hlim.
  apply update_cloudflare_dns_sends.
  apply (request_data_host_port a host ("-" ++ digits)); try assumption.
  - unfold colon_free.
    change (list_ascii_of_string ("-" ++ digits))
      with ("-"%char :: list_ascii_of_string digits).
    cbn [forallb]. exact (numeric_colon_free _ Hd).
  - now apply int_negative.
Qed.

Lemma update_cloudflare_dns_negative_port_witness :
  exists log v,
    update_cloudflare_dns
      (DnsArgs "token" "zone" "record" "mc.example.com" "1.2.3.4:-25"
         "_minecraft" "_tcp" None)
      (provider_answer 200)
    = (Enter "update_cloudflare_dns"
         :: HttpPut "https://api.cloudflare.com/client/v4/zones/zone/dns_records/record"
              {[ "Authorization" := "Bearer token"; "Content-Type" := "application/json" ]}
              (JDict (data_dict
                        (DnsArgs "token" "zone" "record" "mc.example.com" "1.2.3.4:-25"
                           "_minecraft" "_tcp" None)
                        (-25) "1.2.3.4"))
         :: map Print log,
       Return v).
Proof.
  exact (update_cloudflare_dns_negative_port
           (DnsArgs "token" "zone" "record" "mc.example.com" "1.2.3.4:-25"
              "_minecraft" "_tcp" None)
           "1.2.3.4" "25" (provider_answer 200) eq_refl eq_refl eq_refl eq_refl).
Defined.

(** Segments after the second are ignored: with a content
    [host:port:more], the port a run of at most 4300 digits, the request
    has the first segment as target and the second as port, whatever
    follows the second colon. *)
Theorem update_cloudflare_dns_extra_segments (a : dns_args) (host port more : string)
    (net : http_outcome) :
  content a = host ++ ":" ++ port ++ ":" ++ more ->
  colon_free host = true ->
  numeric port = true ->
  within_digit_limit port = true ->
  exists log v,
    update_cloudflare_dns a net
    = (Enter "update_cloudflare_dns"
         :: HttpPut (request_url a) (request_headers a)
              (JDict (data_dict a (decimal_value port) host))
         :: map Print log,
       Return v).
Proof.
  intros Hc Hh Hp Hlim.
  apply update_cloudflare_dns_sends.
  apply (request_data_segments a host port (PyStr.split_colon more));
    [|now apply int_numeric].
  rewrite Hc. unfold PyStr.split_colon.
  change (host ++ ":" ++ port ++ ":" ++ more)
    with (host ++ String ":"%char (port ++ String ":"%char more)).
  rewrite (split_scan_at_colon _ _ _ Hh),
    (split_scan_at_colon _ _ _ (numeric_colon_free _ Hp)).
  cbn [rev app]. now rewrite !string_of_list_ascii_of_string.
Qed.

Lemma update_cloudflare_dns_extra_segments_witness :
  exists log v,
    update_cloudflare_dns
      (DnsArgs "token" "zone" "record" "mc.example.com" "1.2.3.4:5555:tail:9"
         "_minecraft" "_tcp" None)
      (provider_answer 200)
    = (Enter "update_cloudflare_dns"
         :: HttpPut "https://api.cloudflare.com/client/v4/zones/zone/dns_records/record"
              {[ "Authorization" := "Bearer token"; "Content-Type" := "application/json" ]}
              (JDict (data_dict
                        (DnsArgs "token" "zone" "record" "mc.example.com"
                           "1.2.3.4:5555:tail:9" "_minecraft" "_tcp" None)
                        5555 "1.2.3.4"))
         :: map Print log,
       Return v).
Proof.
  exact (update_cloudflare_dns_extra_segments
           (DnsArgs "token" "zone" "record" "mc.example.com" "1.2.3.4:5555:tail:9"
              "_minecraft" "_tcp" None)
           "1.2.3.4" "5555" "tail:9" (provider_answer 200) eq_refl eq_refl eq_refl
           eq_refl).
Defined.

(** ** The script body *)

Lemma update_accepted (a : dns_args) (data : json) (r : response) (v : json) :
  request_data a = ([], Return data) ->
  status_code r = 200 -> decoded r = Some v ->
  update_cloudflare_dns a (Responded r)
  = ([Enter "update_cloudflare_dns"; HttpPut (request_url a) (request_headers a) data],
     Return v).
Proof.
  destruct r as [st body]. cbn [status_code decoded]. intros Hdata -> ->.
  unfold update_cloudflare_dns, update_cloudflare_dns_try. run. rewrite Hdata. reflexivity.
Qed.

Lemma update_not_accepted (a : dns_args) (data : json) (net : http_outcome) :
  request_data a = ([], Return data) ->
  accepted net = false ->
  exists l log,
    update_cloudflare_dns a net
    = (Enter "update_cloudflare_dns"
         :: HttpPut (request_url a) (request_headers a) data :: Print l :: map Print log,
       Return JNull).
Proof.
  intros Hdata Hnet.
  unfold update_cloudflare_dns, update_cloudflare_dns_try. run. rewrite Hdata. run.
  destruct net as [[st [body|]]|[m|m]]; cbn [accepted status_code decoded] in Hnet; run.
  - rewrite andb_true_r in Hnet. rewrite Hnet. run. eexists _, [_]. reflexivity.
  - destruct (st =? 200); run; [eexists _, []|eexists _, [_]]; reflexivity.
  - eexists _, []. reflexivity.
  - eexists _, []. reflexivity.
Qed.

Section Runs.

Local Open Scope list_scope.

Variables (os_environ dotenv : gmap string string) (get_net put_net : http_outcome).

(** A configured run in which the lookup gave a host and a port, both not
    empty: the script prints them and calls [update_cloudflare_dns] with a
    content that splits back into the two. *)
Lemma main_with_pair (host port : string) :
  forallb truthy (map (getenv (dotenv ∪ os_environ)) required_names) = true ->
  result (get_ngrok_url (format (getenv (dotenv ∪ os_environ) "NGROK_API_ENDPOINT")) get_net)
  = Return (SplitList [host; port]) ->
  host <> "" -> port <> "" ->
  let lookup :=
    get_ngrok_url (format (getenv (dotenv ∪ os_environ) "NGROK_API_ENDPOINT")) get_net in
  let update :=
    update_cloudflare_dns (script_args (dotenv ∪ os_environ) host port) put_net in
  main os_environ dotenv get_net put_net
  = (trace lookup
       ++ Print (Text ("Ngrok Host: " ++ host ++ ", Port: " ++ port)%string)
       :: trace update
       ++ match result update with
          | Return v => [Print (Dumps v)]
          | Raise _ => []
          end,
     match result update with
     | Return _ => Return tt
     | Raise e => Raise e
     end)
  /\ PyStr.split_colon (content (script_args (dotenv ∪ os_environ) host port))
     = [host; port].
Proof.
  intros Hconf Hlookup Hh Hp lookup update. subst lookup update.
  destruct (get_ngrok_url_cases
              (format (getenv (dotenv ∪ os_environ) "NGROK_API_ENDPOINT")) get_net)
    as (log & r & Hget & Hr).
  rewrite Hget in Hlookup. cbn [result snd] in Hlookup. injection Hlookup as ->.
  split.
  - rewrite (main_configured os_environ dotenv get_net put_net _ _ Hconf Hget).
    apply truthy_nonempty in Hh, Hp. rewrite Hh, Hp, Hget. reflexivity.
  - destruct Hr as [Hr|[Hr|[s Hr]]]; try discriminate Hr.
    injection Hr as Hr. pose proof (split_colon_pieces_colon_free s) as Hall.
    rewrite <- Hr in Hall. inversion Hall as [|? ? Hfh Hrest]; subst.
    inversion Hrest; subst. now apply split_colon_host_port.
Qed.

End Runs.

(** A required name that is set to the empty string counts as missing: the
    script prints its diagnostic and ends through [exit(1)] without a
    request. *)
Theorem main_empty_required_value (os_environ dotenv : gmap string string)
    (get_net put_net : http_outcome) (name : string) :
  In name required_names ->
  getenv (dotenv ∪ os_environ) name = Some "" ->
  main os_environ dotenv get_net put_net
  = ([Print (Text "Missing one or more required environment variables.")],
     Raise (SystemExit 1)).
Proof.
  intros Hin Hempty. apply main_unconfigured. apply not_true_is_false. intros Hall.
  rewrite forallb_forall in Hall.
  specialize (Hall _ (in_map (getenv (dotenv ∪ os_environ)) _ _ Hin)).
  rewrite Hempty in Hall. discriminate Hall.
Qed.

Lemma main_empty_required_value_witness :
  main (<[ "CLOUDFLARE_API_TOKEN" := "" ]> example_environ) ∅
    (agent_answer [tunnel_entry "tcp" "tcp://1.2.3.4:5555"]) (provider_answer 200)
  = ([Print (Text "Missing one or more required environment variables.")],
     Raise (SystemExit 1)).
Proof.
  apply (main_empty_required_value (<[ "CLOUDFLARE_API_TOKEN" := "" ]> example_environ) ∅
           (agent_answer [tunnel_entry "tcp" "tcp://1.2.3.4:5555"]) (provider_answer 200)
           "CLOUDFLARE_API_TOKEN").
  - left. reflexivity.
  - vm_compute. reflexivity.
Defined.

(** In a configured run, when [get_ngrok_url] returns [None] the
    assignment to the two names raises [TypeError], and when it returns a
    list that does not have two components the assignment raises
    [ValueError]; nothing catches either, so the run ends there with status
    1, the GET being all it sent. *)
Theorem main_lookup_not_a_pair (os_environ dotenv : gmap string string)
    (get_net put_net : http_outcome) :
  let environ := dotenv ∪ os_environ in
  let lookup := get_ngrok_url (format (getenv environ "NGROK_API_ENDPOINT")) get_net in
  let run := main os_environ dotenv get_net put_net in
  forallb truthy (map (getenv environ) required_names) = true ->
  (result lookup = Return ImplicitNone ->
     run = (trace lookup, Raise TypeError) /\ exit_status (result run) = 1)
  /\ (forall parts, result lookup = Return (SplitList parts) -> length parts <> 2%nat ->
        run = (trace lookup, Raise ValueError) /\ exit_status (result run) = 1).
Proof.
  intros environ lookup run Hconf. subst lookup run.
  destruct (get_ngrok_url_cases (format (getenv environ "NGROK_API_ENDPOINT")) get_net)
    as (log & r & Hget & _).
  rewrite (main_configured os_environ dotenv get_net put_net _ r Hconf Hget).
  fold environ. rewrite Hget. cbn [result trace fst snd]. split.
  - intros [= ->]. split; reflexivity.
  - intros parts [= ->] Hlen.
    destruct parts as [|h [|p [|x rest]]]; try (split; reflexivity).
    now destruct Hlen.
Qed.

Lemma main_lookup_not_a_pair_witness :
  main example_environ ∅ (agent_answer [tunnel_entry "tcp" "tcp://[::1]:5555"])
    (provider_answer 200)
  = ([Enter "get_ngrok_url"; HttpGet example_endpoint], Raise ValueError).
Proof.
  assert (Hlookup :
    result (get_ngrok_url (format (getenv (∅ ∪ example_environ) "NGROK_API_ENDPOINT"))
              (agent_answer [tunnel_entry "tcp" "tcp://[::1]:5555"]))
    = Return (SplitList ["["; ""; "1]"; "5555"])).
  { vm_compute. reflexivity. }
  destruct (proj2 (main_lookup_not_a_pair example_environ ∅
                     (agent_answer [tunnel_entry "tcp" "tcp://[::1]:5555"])
                     (provider_answer 200) example_environ_complete)
              _ Hlookup ltac:(discriminate)) as [Hrun _].
  refine (eq_trans Hrun _). vm_compute. reflexivity.
Defined.

(** A run sends nothing, or the GET alone, or the GET and then one PUT to
    the record's URL: never a PUT without the GET before it, and never the
    same request twice. *)
Theorem main_requests_in_order (os_environ dotenv : gmap string string)
    (get_net put_net : http_outcome) :
  let environ := dotenv ∪ os_environ in
  let endpoint := format (getenv environ "NGROK_API_ENDPOINT") in
  let sent := requests_sent (main os_environ dotenv get_net put_net) in
  sent = []
  \/ sent = [HttpGet endpoint]
  \/ exists host port body,
       sent = [HttpGet endpoint;
               HttpPut (request_url (script_args environ host port))
                 (request_headers (script_args environ host port)) body].
Proof.
  intros environ endpoint sent. subst sent.
  destruct (forallb truthy (map (getenv environ) required_names)) eqn:Hconf.
  - destruct (get_ngrok_url_cases endpoint get_net) as (log & r & Hget & _).
    pose proof (main_configured os_environ dotenv get_net put_net _ r Hconf Hget) as Hmain.
    cbn zeta in Hmain. fold environ in Hmain. fold endpoint in Hmain.
    assert (Hlookup : forall tail,
              List.filter is_request
                ((Enter "get_ngrok_url" :: HttpGet endpoint :: map Print log) ++ tail)%list
              = HttpGet endpoint :: List.filter is_request tail).
    { intros tail. cbn [app List.filter is_request]. f_equal.
      now rewrite List.filter_app, requests_of_prints. }
    unfold requests_sent. rewrite Hmain. clear Hmain.
    destruct r as [|[|host [|port [|extra rest]]]|]; cbn [trace fst];
      try (right; left;
           rewrite <- (app_nil_r (Enter "get_ngrok_url" :: HttpGet endpoint :: map Print log));
           rewrite Hlookup; reflexivity);
      try (right; left; rewrite Hlookup; reflexivity).
    destruct (PyStr.truthy host && PyStr.truthy port); cbn zeta; cbn [trace fst];
      [|right; left; rewrite Hlookup; reflexivity].
    rewrite Hlookup. cbn [List.filter is_request].
    rewrite List.filter_app.
    destruct (update_cloudflare_dns_cases (script_args environ host port) put_net)
      as [(data & log' & v & _ & Hrun)|(e & _ & _ & Hrun)];
      rewrite Hrun; cbn [trace result fst snd List.filter is_request app].
    + right; right. exists host, port, data. now rewrite requests_of_prints.
    + right; left. reflexivity.
  - left. now rewrite (main_unconfigured os_environ dotenv get_net put_net Hconf).
Qed.

(** The exit status is 0 or 1, and it is 0 exactly when the four required
    values are set and not empty and [get_ngrok_url] returns either
    [(None, None)] or a list [[host, port]] in which a component is empty or
    the port is accepted by [int].  What the DNS provider answers does not
    enter: a refused or failed update still ends with status 0. *)
Theorem main_exit_status_exactly (os_environ dotenv : gmap string string)
    (get_net put_net : http_outcome) :
  let environ := dotenv ∪ os_environ in
  let lookup :=
    result (get_ngrok_url (format (getenv environ "NGROK_API_ENDPOINT")) get_net) in
  let status := exit_status (result (main os_environ dotenv get_net put_net)) in
  (status = 0 \/ status = 1)
  /\ (status = 0 <->
      forallb truthy (map (getenv environ) required_names) = true
      /\ (lookup = Return NonePair
          \/ exists host port,
               lookup = Return (SplitList [host; port])
               /\ (host = "" \/ port = "" \/ PyInt.int port <> None))).
Proof.
  intros environ lookup status. subst lookup status.
  destruct (forallb truthy (map (getenv environ) required_names)) eqn:Hconf.
  2:{ rewrite (main_unconfigured os_environ dotenv get_net put_net Hconf).
      cbn [result snd exit_status]. split; [now right|].
      split; [discriminate|]. intros [H _]. discriminate H. }
  destruct (get_ngrok_url_cases (format (getenv environ "NGROK_API_ENDPOINT")) get_net)
    as (log & r & Hget & Hr).
  pose proof (main_configured os_environ dotenv get_net put_net _ r Hconf Hget) as Hmain.
  rewrite Hget. cbn [result snd].
  destruct r as [|[|host [|port [|extra rest]]]|];
    try (rewrite Hmain; cbn [result snd exit_status]; split; [now right|];
         split; [discriminate|];
         intros [_ [H|(h & p & H & _)]]; discriminate H).
  - rewrite Hmain. cbn [result snd exit_status]. split; [now left|].
    split; [intros _; split; [reflexivity|now left]|reflexivity].
  - destruct (PyStr.truthy host && PyStr.truthy port) eqn:Htruthy.
    + apply andb_true_iff in Htruthy as [Hh Hp]. apply truthy_nonempty in Hh, Hp.
      assert (Hlookup : result (get_ngrok_url
                                  (format (getenv environ "NGROK_API_ENDPOINT")) get_net)
                        = Return (SplitList [host; port])) by now rewrite Hget.
      destruct (main_with_pair os_environ dotenv get_net put_net host port
                  Hconf Hlookup Hh Hp) as [Hrun Hsplit].
      cbn zeta in Hrun. rewrite Hrun. cbn [result snd]. clear Hrun Hmain.
      destruct (update_cloudflare_dns_cases (script_args environ host port) put_net)
        as [(data & log' & v & Hdata & Hrun)|(e & He & Hdata & Hrun)];
        fold environ; rewrite Hrun; cbn [result snd exit_status].
      * split; [now left|]. split; [|reflexivity]. intros _. split; [reflexivity|].
        right. exists host, port. split; [reflexivity|]. right; right.
        destruct (request_data_cases (script_args environ host port))
          as [(port' & target & Hseg & Hint & _)|[H|H]];
          [|rewrite H in Hdata; discriminate Hdata..].
        fold environ in Hsplit. rewrite Hsplit in Hseg.
        cbn [lookup list_lookup] in Hseg. now injection Hseg as <-.
      * assert (Hint : PyInt.int port = None).
        { destruct (PyInt.int port) as [n|] eqn:Hn; [|reflexivity].
          fold environ in Hsplit.
          rewrite (request_data_segments _ _ _ _ _ Hsplit Hn) in Hdata.
          destruct He as [->| ->]; discriminate Hdata. }
        split; [right; now destruct He as [->| ->]|].
        split; [destruct He as [->| ->]; discriminate|].
        intros [_ [H|(h & p & H & Hcase)]]; [discriminate H|].
        injection H as <- <-. destruct Hcase as [H|[H|H]]; congruence.
    + rewrite Hmain. cbn [result snd exit_status]. split; [now left|].
      split; [|reflexivity]. intros _. split; [reflexivity|].
      right. exists host, port. split; [reflexivity|].
      apply andb_false_iff in Htruthy as [H|H].
      * left. destruct host; [reflexivity|discriminate H].
      * right; left. destruct port; [reflexivity|discriminate H].
Qed.

(** The whole of a successful run.  With the configuration complete, a
    lookup that returns [[host, port]], both not empty and the port accepted
    by [int], and a 200 answer with a JSON body to the PUT, the script
    prints host and port, sends the PUT whose body has the host as target
    and the parsed port, prints the decoded answer and ends with status 0. *)
Theorem main_publishes (os_environ dotenv : gmap string string)
    (get_net : http_outcome) (r : response) (host port : string) (n : Z)
    (answer : json) :
  let environ := dotenv ∪ os_environ in
  let lookup := get_ngrok_url (format (getenv environ "NGROK_API_ENDPOINT")) get_net in
  let a := script_args environ host port in
  forallb truthy (map (getenv environ) required_names) = true ->
  result lookup = Return (SplitList [host; port]) ->
  host <> "" -> port <> "" ->
  PyInt.int port = Some n ->
  status_code r = 200 -> decoded r = Some answer ->
  main os_environ dotenv get_net (Responded r)
  = ((trace lookup
        ++ [Print (Text ("Ngrok Host: " ++ host ++ ", Port: " ++ port));
            Enter "update_cloudflare_dns";
            HttpPut (request_url a) (request_headers a) (JDict (data_dict a n host));
            Print (Dumps answer)])%list,
     Return tt).
Proof.
  intros environ lookup a Hconf Hlookup Hh Hp Hint Hst Hbody. subst lookup a.
  destruct (main_with_pair os_environ dotenv get_net (Responded r) host port
              Hconf Hlookup Hh Hp) as [Hrun Hsplit].
  cbn zeta in Hrun. fold environ in Hrun, Hsplit. rewrite Hrun.
  rewrite (update_accepted (script_args environ host port) _ r answer
             (request_data_segments _ _ _ _ _ Hsplit Hint) Hst Hbody).
  reflexivity.
Qed.

Lemma main_publishes_witness :
  main example_environ ∅ (agent_answer [tunnel_entry "tcp" "tcp://1.2.3.4:5555"])
    (provider_answer 200)
  = ([Enter "get_ngrok_url"; HttpGet example_endpoint;
      Print (Text "Ngrok Host: 1.2.3.4, Port: 5555");
      Enter "update_cloudflare_dns";
      HttpPut "https://api.cloudflare.com/client/v4/zones/zone/dns_records/record"
        {[ "Authorization" := "Bearer token"; "Content-Type" := "application/json" ]}
        (JDict (data_dict
                  (DnsArgs "token" "zone" "record" "default_record_name" "1.2.3.4:5555"
                     "_minecraft" "_tcp" None)
                  5555 "1.2.3.4"));
      Print (Dumps (JDict {[ "success" := JBool true ]}))],
     Return tt).
Proof.
  assert (Hlookup :
    result (get_ngrok_url (format (getenv (∅ ∪ example_environ) "NGROK_API_ENDPOINT"))
              (agent_answer [tunnel_entry "tcp" "tcp://1.2.3.4:5555"]))
    = Return (SplitList ["1.2.3.4"; "5555"])).
  { vm_compute. reflexivity. }
  refine (eq_trans
            (main_publishes example_environ ∅
               (agent_answer [tunnel_entry "tcp" "tcp://1.2.3.4:5555"])
               (Response 200 (Some (JDict {[ "success" := JBool true ]})))
               "1.2.3.4" "5555" 5555 (JDict {[ "success" := JBool true ]})
               example_environ_complete Hlookup ltac:(discriminate) ltac:(discriminate)
               eq_refl eq_refl eq_refl) _).
  vm_compute. reflexivity.
Defined.

(** A refused or failed update does not fail the run.  When the PUT is
    answered by a status other than 200, by a text that is not JSON or by a
    fault of the HTTP library, the script prints at least one line about
    it, then [null] (the JSON text of [None]), and ends with status 0. *)
Theorem main_update_failure (os_environ dotenv : gmap string string)
    (get_net put_net : http_outcome) (host port : string) (n : Z) :
  let environ := dotenv ∪ os_environ in
  let lookup := get_ngrok_url (format (getenv environ "NGROK_API_ENDPOINT")) get_net in
  let a := script_args environ host port in
  forallb truthy (map (getenv environ) required_names) = true ->
  result lookup = Return (SplitList [host; port]) ->
  host <> "" -> port <> "" ->
  PyInt.int port = Some n ->
  accepted put_net = false ->
  exists l log,
    main os_environ dotenv get_net put_net
    = ((trace lookup
          ++ [Print (Text ("Ngrok Host: " ++ host ++ ", Port: " ++ port));
              Enter "update_cloudflare_dns";
              HttpPut (request_url a) (request_headers a) (JDict (data_dict a n host))]
          ++ Print l :: map Print log
          ++ [Print (Dumps JNull)])%list,
       Return tt).
Proof.
  intros environ lookup a Hconf Hlookup Hh Hp Hint Hnet. subst lookup a.
  destruct (main_with_pair os_environ dotenv get_net put_net host port
              Hconf Hlookup Hh Hp) as [Hrun Hsplit].
  cbn zeta in Hrun. fold environ in Hrun, Hsplit.
  destruct (update_not_accepted (script_args environ host port) _ put_net
              (request_data_segments _ _ _ _ _ Hsplit Hint) Hnet) as (l & log & Hupd).
  exists l, log. rewrite Hrun, Hupd. reflexivity.
Qed.

Lemma main_update_failure_witness :
  exists l log,
    main example_environ ∅ (agent_answer [tunnel_entry "tcp" "tcp://1.2.3.4:5555"])
      (Failed (RequestFault "connection refused"))
    = ((trace (get_ngrok_url
                 (format (getenv (∅ ∪ example_environ) "NGROK_API_ENDPOINT"))
                 (agent_answer [tunnel_entry "tcp" "tcp://1.2.3.4:5555"]))
          ++ [Print (Text "Ngrok Host: 1.2.3.4, Port: 5555");
              Enter "update_cloudflare_dns";
              HttpPut (request_url (script_args (∅ ∪ example_environ) "1.2.3.4" "5555"))
                (request_headers (script_args (∅ ∪ example_environ) "1.2.3.4" "5555"))
                (JDict (data_dict (script_args (∅ ∪ example_environ) "1.2.3.4" "5555")
                          5555 "1.2.3.4"))]
          ++ Print l :: map Print log
          ++ [Print (Dumps JNull)])%list,
       Return tt).
Proof.
  assert (Hlookup :
    result (get_ngrok_url (format (getenv (∅ ∪ example_environ) "NGROK_API_ENDPOINT"))
              (agent_answer [tunnel_entry "tcp" "tcp://1.2.3.4:5555"]))
    = Return (SplitList ["1.2.3.4"; "5555"])).
  { vm_compute. reflexivity. }
  exact (main_update_failure example_environ ∅
           (agent_answer [tunnel_entry "tcp" "tcp://1.2.3.4:5555"])
           (Failed (RequestFault "connection refused"))
           "1.2.3.4" "5555" 5555
           example_environ_complete Hlookup ltac:(discriminate) ltac:(discriminate)
           eq_refl eq_refl).
Defined.

(** How the configuration reaches the request.  In a configured run that
    gets to the update, the PUT goes to the URL made of the zone and record
    ids, carries the token as a bearer in its [Authorization] header, and
    its body has the record name and the service name of the environment,
    or ["default_record_name"] and ["_minecraft"] when these are not set (a
    name set to the empty string is kept), the proto ["_tcp"] and the ttl
    60. *)
Theorem main_request_from_configuration (os_environ dotenv : gmap string string)
    (get_net put_net : http_outcome) (host port token zone record : string) (n : Z) :
  let environ := dotenv ∪ os_environ in
  let lookup := get_ngrok_url (format (getenv environ "NGROK_API_ENDPOINT")) get_net in
  forallb truthy (map (getenv environ) required_names) = true ->
  getenv environ "CLOUDFLARE_API_TOKEN" = Some token ->
  getenv environ "CLOUDFLARE_ZONE_ID" = Some zone ->
  getenv environ "CLOUDFLARE_RECORD_ID" = Some record ->
  result lookup = Return (SplitList [host; port]) ->
  host <> "" -> port <> "" ->
  PyInt.int port = Some n ->
  exists (headers : gmap string string) (body data : gmap string json),
    In (HttpPut ("https://api.cloudflare.com/client/v4/zones/" ++ zone
                   ++ "/dns_records/" ++ record)
          headers (JDict body))
       (trace (main os_environ dotenv get_net put_net))
    /\ headers !! "Authorization" = Some ("Bearer " ++ token)
    /\ headers !! "Content-Type" = Some "application/json"
    /\ body !! "type" = Some (JStr "SRV")
    /\ body !! "name"
       = Some (JStr (default "default_record_name" (environ !! "CLOUDFLARE_RECORD_NAME")))
    /\ body !! "content" = Some (JStr (host ++ ":" ++ port))
    /\ body !! "ttl" = Some (JInt 60)
    /\ body !! "data" = Some (JDict data)
    /\ data !! "service"
       = Some (JStr (default "_minecraft" (environ !! "CLOUDFLARE_SERVICE_NAME")))
    /\ data !! "proto" = Some (JStr "_tcp")
    /\ data !! "port" = Some (JInt n)
    /\ data !! "target" = Some (JStr host).
Proof.
  intros environ lookup Hconf Htoken Hzone Hrecord Hlookup Hh Hp Hint. subst lookup.
  destruct (main_with_pair os_environ dotenv get_net put_net host port
              Hconf Hlookup Hh Hp) as [Hrun Hsplit].
  cbn zeta in Hrun. fold environ in Hrun, Hsplit.
  destruct (update_cloudflare_dns_sends (script_args environ host port) _ put_net
              (request_data_segments _ _ _ _ _ Hsplit Hint)) as (log & v & Hupd).
  rewrite Hupd in Hrun. cbn [trace result fst snd] in Hrun.
  exists (request_headers (script_args environ host port)),
         (data_dict (script_args environ host port) n host),
         ({[ "service" := JStr (service (script_args environ host port));
             "proto" := JStr (proto (script_args environ host port));
             "name" := JStr (name (script_args environ host port));
             "priority" := JInt 0;
             "weight" := JInt 0;
             "port" := JInt n;
             "target" := JStr host ]}).
  split.
  - rewrite Hrun. cbn [trace fst]. apply in_or_app. right. right. right. left.
    unfold request_url, script_args. cbn [zone_id record_id].
    rewrite Hzone, Hrecord. reflexivity.
  - unfold request_headers, data_dict, script_args, getenv_or.
    cbn [api_token name content service proto ttl]. rewrite Htoken. cbn [format].
    generalize (default "default_record_name" (environ !! "CLOUDFLARE_RECORD_NAME")).
    generalize (default "_minecraft" (environ !! "CLOUDFLARE_SERVICE_NAME")).
    intros service_name record_name.
    repeat split; vm_compute; reflexivity.
Qed.

Lemma main_request_from_configuration_witness :
  exists (headers : gmap string string) (body data : gmap string json),
    In (HttpPut "https://api.cloudflare.com/client/v4/zones/zone/dns_records/record"
          headers (JDict body))
       (trace (main (<[ "CLOUDFLARE_RECORD_NAME" := "" ]> example_environ) ∅
                 (agent_answer [tunnel_entry "tcp" "tcp://1.2.3.4:5555"])
                 (provider_answer 200)))
    /\ headers !! "Authorization" = Some "Bearer token"
    /\ body !! "name" = Some (JStr "")
    /\ body !! "data" = Some (JDict data)
    /\ data !! "service" = Some (JStr "_minecraft")
    /\ data !! "port" = Some (JInt 5555)
    /\ data !! "target" = Some (JStr "1.2.3.4").
Proof.
  assert (Hconf :
    forallb truthy
      (map (getenv (∅ ∪ <[ "CLOUDFLARE_RECORD_NAME" := "" ]> example_environ))
         required_names) = true).
  { vm_compute. reflexivity. }
  assert (Hlookup :
    result (get_ngrok_url
              (format (getenv (∅ ∪ <[ "CLOUDFLARE_RECORD_NAME" := "" ]> example_environ)
                         "NGROK_API_ENDPOINT"))
              (agent_answer [tunnel_entry "tcp" "tcp://1.2.3.4:5555"]))
    = Return (SplitList ["1.2.3.4"; "5555"])).
  { vm_compute. reflexivity. }
  assert (Htoken : getenv (∅ ∪ <[ "CLOUDFLARE_RECORD_NAME" := "" ]> example_environ)
                     "CLOUDFLARE_API_TOKEN" = Some "token").
  { vm_compute. reflexivity. }
  assert (Hzone : getenv (∅ ∪ <[ "CLOUDFLARE_RECORD_NAME" := "" ]> example_environ)
                    "CLOUDFLARE_ZONE_ID" = Some "zone").
  { vm_compute. reflexivity. }
  assert (Hrecord : getenv (∅ ∪ <[ "CLOUDFLARE_RECORD_NAME" := "" ]> example_environ)
                      "CLOUDFLARE_RECORD_ID" = Some "record").
  { vm_compute. reflexivity. }
  assert (Hname : default "default_record_name"
                    ((∅ ∪ <[ "CLOUDFLARE_RECORD_NAME" := "" ]> example_environ)
                       !! "CLOUDFLARE_RECORD_NAME") = "").
  { vm_compute. reflexivity. }
  assert (Hservice : default "_minecraft"
                       ((∅ ∪ <[ "CLOUDFLARE_RECORD_NAME" := "" ]> example_environ)
                          !! "CLOUDFLARE_SERVICE_NAME") = "_minecraft").
  { vm_compute. reflexivity. }
  destruct (main_request_from_configuration
              (<[ "CLOUDFLARE_RECORD_NAME" := "" ]> example_environ) ∅
              (agent_answer [tunnel_entry "tcp" "tcp://1.2.3.4:5555"])
              (provider_answer 200)
              "1.2.3.4" "5555" "token" "zone" "record" 5555
              Hconf Htoken Hzone Hrecord Hlookup ltac:(discriminate) ltac:(discriminate)
              eq_refl)
    as (headers & body & data & Hin & Hauth & _ & _ & Hbname & _ & _ & Hdata & Hsvc
        & _ & Hport & Htarget).
  rewrite Hname in Hbname. rewrite Hservice in Hsvc.
  exists headers, body, data. repeat split; assumption.
Defined.
